(** * Jenkins agent provisioning script: a shallow embedding and its properties

    The development follows [jagent/Script/jenkins-agent-automation.py].
    The script is a straight-line sequence of HTTP calls, file-system
    operations and subprocess invocations followed by an endless polling
    loop.  Every function of the script is embedded as a computation in a
    small monad that threads the history of external effects and may
    raise a Python exception.  The outside world (Jenkins, the file
    system, the service manager, the mail relay) is a record of oracles
    that answer each call as a function of the history so far. *)

From Stdlib Require Import String Ascii List ZArith Bool Lia DecimalString.
Import ListNotations.
Local Open Scope list_scope.
Local Open Scope string_scope.
Set Warnings "-register-all".

(** ** Python strings *)

Module PyStr.

(** [str(n)] for an integer. *)
Definition of_Z (n : Z) : string := NilZero.string_of_int (Z.to_int n).

(** [s.endswith(suffix)]. *)
Fixpoint endswith (s suffix : string) : bool :=
  String.eqb s suffix
  || match s with
     | EmptyString => false
     | String _ s' => endswith s' suffix
     end.

(** [s[:-1]]. *)
Fixpoint drop_last (s : string) : string :=
  match s with
  | EmptyString => EmptyString
  | String c s' =>
      match s' with
      | EmptyString => EmptyString
      | String _ _ => String c (drop_last s')
      end
  end.

(** [needle in s]. *)
Fixpoint contains (s needle : string) : bool :=
  String.prefix needle s
  || match s with
     | EmptyString => false
     | String _ s' => contains s' needle
     end.

(** The line feed character and the test [chr(10) in s]. *)
Definition LF : ascii := Ascii.ascii_of_nat 10.

Fixpoint has_LF (s : string) : bool :=
  match s with
  | EmptyString => false
  | String c s' => Ascii.eqb c LF || has_LF s'
  end.

(** [s.split(chr(10))]: the lines of a text. *)
Fixpoint lines (s : string) : list string :=
  match s with
  | EmptyString => [EmptyString]
  | String c s' =>
      if Ascii.eqb c LF then EmptyString :: lines s'
      else match lines s' with
           | [] => [String c EmptyString]
           | l :: ls => String c l :: ls
           end
  end.

(** [s[len(p):]] when [s] starts with [p]. *)
Fixpoint strip_prefix (p s : string) : option string :=
  match p with
  | EmptyString => Some s
  | String a p' =>
      match s with
      | EmptyString => None
      | String b s' => if Ascii.eqb a b then strip_prefix p' s' else None
      end
  end.

End PyStr.

(** ** JSON values and [json.dumps] *)

Inductive json : Type :=
| JNull
| JBool (b : bool)
| JNumber (n : Z)
| JString (s : string)
| JArray (items : list json)
| JObject (fields : list (string * json)).

Module Json.

Definition hex_digit (n : nat) : ascii :=
  Ascii.ascii_of_nat (if Nat.ltb n 10 then 48 + n else 87 + n).

(** One character of [py_encode_basestring_ascii]: backslash and the
    double quote are escaped, the usual control characters have short
    forms, and everything outside [' '..'~'] becomes a [\u00xx] escape
    (strings of the model range over code points below 256). *)
Definition escape_char (c : ascii) : string :=
  let n := Ascii.nat_of_ascii c in
  let bs := String (Ascii.ascii_of_nat 92) EmptyString in
  if Nat.eqb n 92 then bs ++ bs
  else if Nat.eqb n 34 then bs ++ String c EmptyString
  else if Nat.eqb n 8 then bs ++ "b"
  else if Nat.eqb n 12 then bs ++ "f"
  else if Nat.eqb n 10 then bs ++ "n"
  else if Nat.eqb n 13 then bs ++ "r"
  else if Nat.eqb n 9 then bs ++ "t"
  else if Nat.leb 32 n && Nat.leb n 126 then String c EmptyString
  else bs ++ "u00"
          ++ String (hex_digit (Nat.div n 16))
               (String (hex_digit (Nat.modulo n 16)) EmptyString).

Fixpoint escape (s : string) : string :=
  match s with
  | EmptyString => EmptyString
  | String c s' => escape_char c ++ escape s'
  end.

Definition quote (s : string) : string :=
  String (Ascii.ascii_of_nat 34) (escape s)
  ++ String (Ascii.ascii_of_nat 34) EmptyString.

(** [json.dumps(v)] with the default separators [", "] and [": "]. *)
Fixpoint dumps (v : json) : string :=
  match v with
  | JNull => "null"
  | JBool true => "true"
  | JBool false => "false"
  | JNumber n => PyStr.of_Z n
  | JString s => quote s
  | JArray items =>
      "[" ++ (fix go (l : list json) : string :=
                match l with
                | [] => EmptyString
                | x :: r =>
                    match r with
                    | [] => dumps x
                    | _ :: _ => dumps x ++ ", " ++ go r
                    end
                end) items ++ "]"
  | JObject fields =>
      "{" ++ (fix go (l : list (string * json)) : string :=
                match l with
                | [] => EmptyString
                | (k, x) :: r =>
                    match r with
                    | [] => quote k ++ ": " ++ dumps x
                    | _ :: _ => quote k ++ ": " ++ dumps x ++ ", " ++ go r
                    end
                end) fields ++ "}"
  end.

(** Field access on a decoded object, [None] when the key is absent
    or the value is not an object. *)
Fixpoint assoc (k : string) (l : list (string * json)) : option json :=
  match l with
  | [] => None
  | (k', v) :: r => if String.eqb k k' then Some v else assoc k r
  end.

Definition field (k : string) (v : json) : option json :=
  match v with
  | JObject fields => assoc k fields
  | _ => None
  end.

End Json.

(** ** Exceptions *)

(** The argument of [SystemExit]: a message ([raise SystemExit(msg)]) or
    a status ([sys.exit(1)]). *)
Inductive exit_arg : Type :=
| ExitMsg (msg : string)
| ExitCode (code : Z).

(** The exceptions the script distinguishes.  [RequestException] stands
    for [requests.exceptions.RequestException] and its subclasses
    ([HTTPError], [ConnectionError], ...), [OSError] for the other
    subclasses of [OSError], and [OtherException] for every remaining
    subclass of [Exception], tagged with its class name. *)
Inductive exn : Type :=
| SystemExit (arg : exit_arg)
| KeyboardInterrupt
| RequestException (msg : string)
| OSError (msg : string)
| OtherException (cls : string) (msg : string).

(** The classes named in the script's [except] clauses. *)
Inductive except_class : Type :=
| ExceptException
| ExceptRequestException
| ExceptOSError
| ExceptKeyboardInterrupt.

(** [isinstance(e, cls)]: [SystemExit] and [KeyboardInterrupt] derive
    from [BaseException] only; [RequestException] derives from
    [IOError], an alias of [OSError]. *)
Definition isinstance (e : exn) (cls : except_class) : bool :=
  match cls, e with
  | ExceptException, (RequestException _ | OSError _ | OtherException _ _) => true
  | ExceptRequestException, RequestException _ => true
  | ExceptOSError, (RequestException _ | OSError _) => true
  | ExceptKeyboardInterrupt, KeyboardInterrupt => true
  | _, _ => false
  end.

(** [str(e)], as interpolated by the f-strings of the handlers. *)
Definition exn_str (e : exn) : string :=
  match e with
  | SystemExit (ExitMsg m) => m
  | SystemExit (ExitCode c) => PyStr.of_Z c
  | KeyboardInterrupt => EmptyString
  | RequestException m => m
  | OSError m => m
  | OtherException _ m => m
  end.

(** ** Data of the script *)

(** The namespace returned by [parse_arguments]. *)
Record Args : Type := mkArgs {
  jenkins_url : string;
  username : string;
  api_token : string;
  agent_name : string;
  remote_fs : string;
  label : string;
  executors : Z;
  config_file : string
}.

(** [HTTPBasicAuth(username, api_token)]. *)
Definition auth_t : Type := (string * string)%type.

(** A request header dictionary.  Jenkins' crumb is decoded JSON, so
    keys and values are JSON values. *)
Definition headers_t : Type := list (json * json).

(** The part of a [requests.Response] the script reads. *)
Record Response : Type := mkResponse {
  status_code : Z;
  reason : string;
  url : string;
  text : string;
  content : string;
  json_body : exn + json
}.

(** The message assembled by [send_email]. *)
Record mail : Type := mkMail {
  mail_from : option string;
  mail_to : option string;
  mail_subject : string;
  mail_body : string
}.

(** The steps of the SMTP session of [send_email]. *)
Inductive smtp_op : Type :=
| SmtpConnect (host : option string) (port : Z)
| SmtpStartTls
| SmtpLogin (user password : option string)
| SmtpSendmail (sender recipient : option string) (msg : mail)
| SmtpQuit.

(** ** Effects and the outside world *)

(** One entry of the history per external call the script makes. *)
Inductive event : Type :=
| EvLogInfo (msg : string)
| EvLogError (msg : string)
| EvPrint (msg : string)
| EvHttpGet (target : string) (headers : option headers_t) (auth : option auth_t)
| EvHttpPost (target : string) (headers : headers_t)
    (data : list (string * string)) (auth : auth_t)
| EvMakedirs (path : string)
| EvWriteFile (path : string) (data : string)
| EvRun (cmd : list string)
| EvSmtp (op : smtp_op)
| EvSleep (seconds : Z).

(** The history of a run, most recent event first. *)
Definition history : Type := list event.

(** The environment of a run.  Every oracle sees the history up to the
    call it answers, so the same call may be answered differently each
    time it is made. *)
Record World : Type := mkWorld {
  (** outcome of [parser.parse_args()] *)
  argv_outcome : exn + Args;
  (** [platform.system()] *)
  platform_system : string;
  (** [os.getenv], after [load_dotenv()] *)
  getenv : string -> option string;
  (** outcome of [int(os.getenv('SMTP_PORT'))] *)
  smtp_port_outcome : exn + Z;
  (** [os.path.join] of the host *)
  os_path_join : string -> string -> string;
  (** [os.path.exists] *)
  os_path_exists : history -> string -> bool;
  (** [requests.get] and [requests.post] *)
  http_reply : history -> event -> exn + Response;
  (** [os.makedirs], [open]/[write], the SMTP steps and [time.sleep]:
      [None] on success, the exception raised otherwise *)
  effect_reply : history -> event -> option exn;
  (** the child process of [subprocess.run]: its return code, or the
      exception raised when it cannot be started *)
  process_reply : history -> list string -> exn + Z
}.

(** ** The monad of the script *)

(** A computation returns, raises, or is still running when the fuel
    of the polling loop runs out ([Spin]). *)
Inductive result (A : Type) : Type :=
| Ret (a : A)
| Raise (e : exn)
| Spin.
Arguments Ret {A} a.
Arguments Raise {A} e.
Arguments Spin {A}.

Definition M (A : Type) : Type := World -> history -> history * result A.

Definition ret {A} (a : A) : M A := fun _ h => (h, Ret a).

Definition raise {A} (e : exn) : M A := fun _ h => (h, Raise e).

Definition spin {A} : M A := fun _ h => (h, Spin).

Definition bind {A B} (m : M A) (k : A -> M B) : M B :=
  fun w h =>
    match m w h with
    | (h', Ret a) => k a w h'
    | (h', Raise e) => (h', Raise e)
    | (h', Spin) => (h', Spin)
    end.

Notation "x <- m ;; k" := (bind m (fun x => k))
  (at level 61, m at next level, right associativity).
Notation "m ;; k" := (bind m (fun _ => k))
  (at level 61, right associativity).

(** [try: m  except cls as e: handler e]. *)
Definition try_except {A} (m : M A) (cls : except_class)
    (handler : exn -> M A) : M A :=
  fun w h =>
    match m w h with
    | (h', Raise e) =>
        if isinstance e cls then handler e w h' else (h', Raise e)
    | r => r
    end.

(** Lift a pure outcome. *)
Definition lift {A} (r : exn + A) : M A :=
  match r with
  | inl e => raise e
  | inr a => ret a
  end.

(** Read the environment without any effect. *)
Definition ask {A} (f : World -> history -> A) : M A :=
  fun w h => (h, Ret (f w h)).

(** Read an outcome of the environment that may be an exception. *)
Definition ask_outcome {A} (f : World -> exn + A) : M A :=
  fun w h =>
    match f w with
    | inl e => (h, Raise e)
    | inr a => (h, Ret a)
    end.

Definition emit (e : event) : M unit := fun _ h => (e :: h, Ret tt).

(** A call whose only result is success or an exception. *)
Definition effect (e : event) : M unit :=
  fun w h =>
    match effect_reply w h e with
    | None => (e :: h, Ret tt)
    | Some x => (e :: h, Raise x)
    end.

Definition http (e : event) : M Response :=
  fun w h =>
    match http_reply w h e with
    | inr r => (e :: h, Ret r)
    | inl x => (e :: h, Raise x)
    end.

Definition logging_info (msg : string) : M unit := emit (EvLogInfo msg).
Definition logging_error (msg : string) : M unit := emit (EvLogError msg).
Definition print (msg : string) : M unit := emit (EvPrint msg).

Definition requests_get (target : string) (headers : option headers_t)
    (auth : option auth_t) : M Response :=
  http (EvHttpGet target headers auth).

Definition requests_post (target : string) (headers : headers_t)
    (data : list (string * string)) (auth : auth_t) : M Response :=
  http (EvHttpPost target headers data auth).

(** [response.raise_for_status()]. *)
Definition raise_for_status (r : Response) : M unit :=
  let c := status_code r in
  if (400 <=? c)%Z && (c <? 500)%Z then
    raise (RequestException
             (PyStr.of_Z c ++ " Client Error: " ++ reason r ++ " for url: " ++ url r))
  else if (500 <=? c)%Z && (c <? 600)%Z then
    raise (RequestException
             (PyStr.of_Z c ++ " Server Error: " ++ reason r ++ " for url: " ++ url r))
  else ret tt.

(** [subprocess.run(cmd, ..., check=check)] reduced to its return code.
    With an empty argument list no program can be named and the call
    raises before any child is started; with [check=True] a non-zero
    return code raises [CalledProcessError]. *)
Definition subprocess_run (cmd : list string) (check : bool) : M Z :=
  fun w h =>
    match cmd with
    | [] => (EvRun cmd :: h,
             Raise (OtherException "IndexError" "list index out of range"))
    | _ :: _ =>
        match process_reply w h cmd with
        | inl x => (EvRun cmd :: h, Raise x)
        | inr rc =>
            if check && negb (rc =? 0)%Z then
              (EvRun cmd :: h,
               Raise (OtherException "CalledProcessError"
                        ("Command returned non-zero exit status "
                           ++ PyStr.of_Z rc ++ ".")))
            else (EvRun cmd :: h, Ret rc)
        end
    end.

Definition time_sleep (seconds : Z) : M unit := effect (EvSleep seconds).

Definition platform_system_ : M string := ask (fun w _ => platform_system w).

Definition os_getenv (name : string) : M (option string) :=
  ask (fun w _ => getenv w name).

Definition os_path_join_ (a b : string) : M string :=
  ask (fun w _ => os_path_join w a b).

Definition os_path_exists_ (path : string) : M bool :=
  ask (fun w h => os_path_exists w h path).

(** [f"{v}"] for a value that may be [None]. *)
Definition str_opt (v : option string) : string :=
  match v with
  | Some s => s
  | None => "None"
  end.

(** ** Dictionaries keyed by decoded JSON *)

(** Lists and dictionaries cannot be dictionary keys. *)
Definition hashable (k : json) : bool :=
  match k with
  | JArray _ | JObject _ => false
  | _ => true
  end.

(** Equality of hashable keys ([True == 1] and [False == 0]). *)
Definition key_eqb (a b : json) : bool :=
  match a, b with
  | JNull, JNull => true
  | JString x, JString y => String.eqb x y
  | JNumber x, JNumber y => (x =? y)%Z
  | JBool x, JBool y => Bool.eqb x y
  | JBool x, JNumber y | JNumber y, JBool x => ((if x then 1 else 0) =? y)%Z
  | _, _ => false
  end.

(** [d[k] = v] on an insertion-ordered dictionary. *)
Fixpoint dict_set (d : headers_t) (k v : json) : headers_t :=
  match d with
  | [] => [(k, v)]
  | (k', v') :: r =>
      if key_eqb k' k then (k', v) :: r else (k', v') :: dict_set r k v
  end.

(** [v[k]] for a string key [k]. *)
Definition subscript (v : json) (k : string) : exn + json :=
  match v with
  | JObject fields =>
      match Json.assoc k fields with
      | Some x => inr x
      | None => inl (OtherException "KeyError" ("'" ++ k ++ "'"))
      end
  | JArray _ =>
      inl (OtherException "TypeError"
             "list indices must be integers or slices, not str")
  | JString _ =>
      inl (OtherException "TypeError" "string indices must be integers")
  | _ => inl (OtherException "TypeError" "object is not subscriptable")
  end.

(** ** The functions of the script *)

(** [parse_arguments]: the command line is part of the environment. *)
Definition parse_arguments : M Args := ask_outcome argv_outcome.

(** [get_headers(csrf_token)].  A non-empty tuple is true, so a token
    that is given is always stored. *)
Definition get_headers (csrf_token : option (json * json)) : M headers_t :=
  let headers :=
    [(JString "Content-Type", JString "application/x-www-form-urlencoded")] in
  match csrf_token with
  | Some (name, value) =>
      if hashable name then ret (dict_set headers name value)
      else raise (OtherException "TypeError" "unhashable type")
  | None => ret headers
  end.

Definition get_csrf_token (jenkins_url : string) (auth : auth_t)
    : M (json * json) :=
  try_except
    (let crumb_issuer_url := jenkins_url ++ "/crumbIssuer/api/json" in
     response <- requests_get crumb_issuer_url None (Some auth) ;;
     raise_for_status response ;;
     crumb_data <- lift (json_body response) ;;
     field <- lift (subscript crumb_data "crumbRequestField") ;;
     crumb <- lift (subscript crumb_data "crumb") ;;
     ret (field, crumb))
    ExceptRequestException
    (fun e =>
       logging_error ("Error retrieving CSRF token: " ++ exn_str e) ;;
       raise (SystemExit (ExitMsg ("Error retrieving CSRF token: " ++ exn_str e)))).

Definition check_agent_exists (jenkins_url agent_name : string)
    (headers : headers_t) (auth : auth_t) : M bool :=
  let check_agent_url := jenkins_url ++ "/computer/" ++ agent_name ++ "/api/json" in
  try_except
    (response <- requests_get check_agent_url (Some headers) (Some auth) ;;
     if (status_code response =? 200)%Z then
       logging_info ("Agent '" ++ agent_name ++ "' already exists.") ;;
       print ("Agent '" ++ agent_name ++ "' already exists.") ;;
       ret true
     else if (status_code response =? 404)%Z then
       logging_info ("Agent '" ++ agent_name
                       ++ "' does not exist. Proceeding with creation.") ;;
       ret false
     else
       logging_error
         ("Unexpected response while checking agent existence. Status code: "
            ++ PyStr.of_Z (status_code response)) ;;
       raise (SystemExit
                (ExitMsg ("Error: Unexpected response code "
                            ++ PyStr.of_Z (status_code response)))))
    ExceptRequestException
    (fun e =>
       logging_error ("Error checking if agent exists: " ++ exn_str e) ;;
       raise (SystemExit (ExitMsg ("Error checking if agent exists: " ++ exn_str e)))).

(** The SMTP session inside the [try] of [send_email]. *)
Definition smtp_session (smtp_server : option string) (smtp_port : Z)
    (smtp_user smtp_password email_from email_to : option string)
    (msg : mail) : M unit :=
  effect (EvSmtp (SmtpConnect smtp_server smtp_port)) ;;
  effect (EvSmtp SmtpStartTls) ;;
  effect (EvSmtp (SmtpLogin smtp_user smtp_password)) ;;
  effect (EvSmtp (SmtpSendmail email_from email_to msg)) ;;
  effect (EvSmtp SmtpQuit) ;;
  print ("Alert email sent to " ++ str_opt email_to).

Definition send_email (subject body : string) : M unit :=
  email_from <- os_getenv "EMAIL_FROM" ;;
  email_to <- os_getenv "EMAIL_TO" ;;
  smtp_server <- os_getenv "SMTP_SERVER" ;;
  smtp_port <- ask_outcome smtp_port_outcome ;;
  smtp_user <- os_getenv "SMTP_USER" ;;
  smtp_password <- os_getenv "SMTP_PASSWORD" ;;
  let msg := mkMail email_from email_to subject body in
  try_except
    (smtp_session smtp_server smtp_port smtp_user smtp_password
       email_from email_to msg)
    ExceptException
    (fun e =>
       logging_error ("Failed to send email alert: " ++ exn_str e) ;;
       raise (SystemExit (ExitMsg ("Error sending email: " ++ exn_str e)))).

(** The command list chosen at the top of [monitor_service]. *)
Definition service_status_cmd (current_platform agent_name : string)
    : list string :=
  if String.eqb current_platform "Linux" then
    ["systemctl"; "is-active"; agent_name ++ ".service"]
  else if String.eqb current_platform "Windows" then
    ["sc"; "query"; agent_name]
  else [].

(** One turn of the [while True] loop of [monitor_service]. *)
Definition monitor_cycle (service_status_cmd : list string)
    (agent_name : string) : M unit :=
  returncode <- subprocess_run service_status_cmd false ;;
  (if negb (returncode =? 0)%Z then
     let subject := "Service Failure: " ++ agent_name in
     let body := "The Jenkins agent service '" ++ agent_name
                   ++ "' has failed or stopped unexpectedly." in
     send_email subject body
   else
     logging_info ("The Jenkins agent service '" ++ agent_name
                     ++ "' is running normally.") ;;
     print ("The Jenkins agent service '" ++ agent_name
              ++ "' is running normally.")) ;;
  time_sleep 20.

(** The [while True] loop, unrolled [fuel] times. *)
Fixpoint monitor_loop (fuel : nat) (service_status_cmd : list string)
    (agent_name : string) : M unit :=
  match fuel with
  | O => spin
  | S fuel' =>
      monitor_cycle service_status_cmd agent_name ;;
      monitor_loop fuel' service_status_cmd agent_name
  end.

Definition monitor_service (fuel : nat) (agent_name : string) : M unit :=
  current_platform <- platform_system_ ;;
  let service_status_cmd := service_status_cmd current_platform agent_name in
  try_except
    (monitor_loop fuel service_status_cmd agent_name)
    ExceptException
    (fun e =>
       logging_error ("Failed to monitor the service: " ++ exn_str e) ;;
       raise (SystemExit (ExitMsg ("Error monitoring service: " ++ exn_str e)))).

(** The object serialised into the ['json'] form field by [create_agent]. *)
Definition create_agent_json (agent_name remote_fs label : string) : json :=
  JObject
    [("name", JString agent_name);
     ("nodeDescription", JString "Created by REST API");
     ("numExecutors", JNumber 1);
     ("remoteFS", JString remote_fs);
     ("labelString", JString label);
     ("mode", JString "NORMAL");
     ("retentionStrategy",
      JObject [("stapler-class", JString "hudson.slaves.RetentionStrategy$Always")]);
     ("launcher",
      JObject
        [("stapler-class", JString "hudson.slaves.JNLPLauncher");
         ("workDirSettings",
          JObject [("disabled", JBool false);
                   ("internalDir", JString "remoting");
                   ("failIfWorkDirIsMissing", JBool false)])]);
     ("nodeProperties", JObject [("stapler-class-bag", JString "true")])].

(** The form [data] posted by [create_agent]. *)
Definition create_agent_data (agent_name remote_fs label : string)
    : list (string * string) :=
  [("name", agent_name);
   ("type", "hudson.slaves.DumbSlave");
   ("json", Json.dumps (create_agent_json agent_name remote_fs label))].

Definition create_agent (jenkins_url agent_name : string)
    (headers : headers_t) (auth : auth_t) (remote_fs label : string) : M unit :=
  let create_agent_url := jenkins_url ++ "/computer/doCreateItem" in
  let data := create_agent_data agent_name remote_fs label in
  try_except
    (response <- requests_post create_agent_url headers data auth ;;
     raise_for_status response ;;
     if (status_code response =? 200)%Z then
       logging_info ("Agent '" ++ agent_name ++ "' created successfully.") ;;
       print ("Agent '" ++ agent_name ++ "' created successfully!")
     else
       logging_error ("Failed to create agent. Status code: "
                        ++ PyStr.of_Z (status_code response)
                        ++ ", Message: " ++ text response) ;;
       raise (SystemExit
                (ExitMsg ("Error: Failed to create agent. Status code: "
                            ++ PyStr.of_Z (status_code response)))))
    ExceptRequestException
    (fun e =>
       logging_error ("Error creating agent: " ++ exn_str e) ;;
       raise (SystemExit (ExitMsg ("Error creating agent: " ++ exn_str e)))).

Definition download_agent_jar (jenkins_url remote_fs : string) : M string :=
  let jar_url := jenkins_url ++ "/jnlpJars/agent.jar" in
  jar_path <- os_path_join_ remote_fs "agent.jar" ;;
  present <- os_path_exists_ remote_fs ;;
  (if negb present then
     try_except
       (effect (EvMakedirs remote_fs) ;;
        print ("Directory " ++ remote_fs ++ " created."))
       ExceptOSError
       (fun e =>
          logging_error ("Error creating directory " ++ remote_fs ++ ": " ++ exn_str e) ;;
          raise (SystemExit
                   (ExitMsg ("Error creating directory " ++ remote_fs
                               ++ ": " ++ exn_str e))))
   else ret tt) ;;
  try_except
    (response <- requests_get jar_url None None ;;
     raise_for_status response ;;
     effect (EvWriteFile jar_path (content response)) ;;
     print ("Downloaded agent.jar to " ++ jar_path) ;;
     ret jar_path)
    ExceptRequestException
    (fun e =>
       logging_error ("Error downloading agent.jar: " ++ exn_str e) ;;
       raise (SystemExit (ExitMsg ("Error downloading agent.jar: " ++ exn_str e)))).

(** A one-character string holding the line feed. *)
Definition nl : string := String PyStr.LF EmptyString.

(** The command line interpolated twice by [create_linux_service]: in
    the line it prints and after [ExecStart=]. *)
Definition exec_command (agent_name jenkins_url username api_token
    jar_path work_dir : string) : string :=
  "/usr/bin/java -jar " ++ jar_path
    ++ " -jnlpUrl " ++ jenkins_url ++ "/computer/" ++ agent_name
    ++ "/jenkins-agent.jnlp -jnlpCredentials " ++ username ++ ":" ++ api_token
    ++ " -workDir " ++ work_dir.

(** The f-string [service_content]. *)
Definition service_content (agent_name jenkins_url username api_token
    jar_path work_dir : string) : string :=
  nl ++ "[Unit]" ++ nl
    ++ "Description=Jenkins Agent for " ++ agent_name ++ nl
    ++ "After=network.target" ++ nl
    ++ nl
    ++ "[Service]" ++ nl
    ++ "ExecStart="
    ++ exec_command agent_name jenkins_url username api_token jar_path work_dir ++ nl
    ++ "User=gopal" ++ nl
    ++ "Restart=on-failure" ++ nl
    ++ nl
    ++ "[Install]" ++ nl
    ++ "WantedBy=multi-user.target" ++ nl.

(** The first statement of [create_linux_service]. *)
Definition normalize_url (jenkins_url : string) : string :=
  if PyStr.endswith jenkins_url "/" then PyStr.drop_last jenkins_url
  else jenkins_url.

Definition create_linux_service (agent_name jenkins_url username api_token
    jar_path work_dir : string) : M unit :=
  let jenkins_url := normalize_url jenkins_url in
  print (exec_command agent_name jenkins_url username api_token jar_path work_dir) ;;
  let service_content :=
    service_content agent_name jenkins_url username api_token jar_path work_dir in
  let service_file_path := "/etc/systemd/system/" ++ agent_name ++ ".service" in
  try_except
    (effect (EvWriteFile service_file_path service_content) ;;
     subprocess_run ["systemctl"; "daemon-reload"] true ;;
     subprocess_run ["systemctl"; "enable"; agent_name ++ ".service"] true ;;
     subprocess_run ["systemctl"; "start"; agent_name ++ ".service"] true ;;
     print ("Jenkins agent '" ++ agent_name ++ "' installed as a Linux service."))
    ExceptException
    (fun e =>
       raise (SystemExit
                (ExitMsg ("Failed to create and start the systemd service: "
                            ++ exn_str e)))).

Definition create_windows_service (agent_name jenkins_url username api_token
    jar_path work_dir : string) : M unit :=
  let service_name := agent_name ++ "_service" in
  let nssm_path := "C:\path\to\nssm.exe" in
  try_except
    (subprocess_run
       [nssm_path; "install"; service_name; "java"; "-jar"; jar_path;
        "-jnlpUrl"; jenkins_url ++ "/computer/" ++ agent_name ++ "/jenkins-agent.jnlp";
        "-jnlpCredentials"; username ++ ":" ++ api_token;
        "-workDir"; work_dir] true ;;
     subprocess_run [nssm_path; "start"; service_name] true ;;
     print ("Jenkins agent '" ++ agent_name ++ "' installed as a Windows service."))
    ExceptException
    (fun e =>
       raise (SystemExit
                (ExitMsg ("Failed to create and start the Windows service: "
                            ++ exn_str e)))).

Definition install_agent_service (agent_name jenkins_url remote_fs username
    api_token : string) : M unit :=
  current_platform <- platform_system_ ;;
  jar_path <- download_agent_jar jenkins_url remote_fs ;;
  if String.eqb current_platform "Linux" then
    create_linux_service agent_name jenkins_url username api_token jar_path remote_fs
  else if String.eqb current_platform "Windows" then
    create_windows_service agent_name jenkins_url username api_token jar_path remote_fs
  else
    raise (SystemExit (ExitMsg ("Unsupported platform: " ++ current_platform))).

(** The body of the [try] of [main]. *)
Definition main_body (fuel : nat) : M unit :=
  args <- parse_arguments ;;
  let auth := (username args, api_token args) in
  csrf_token <- get_csrf_token (jenkins_url args) auth ;;
  headers <- get_headers (Some csrf_token) ;;
  present <- check_agent_exists (jenkins_url args) (agent_name args) headers auth ;;
  (if negb present then
     create_agent (jenkins_url args) (agent_name args) headers auth
       (remote_fs args) (label args)
   else ret tt) ;;
  install_agent_service (agent_name args) (jenkins_url args) (remote_fs args)
    (username args) (api_token args) ;;
  monitor_service fuel (agent_name args) ;;
  print "line 283".

Definition main (fuel : nat) : M unit :=
  try_except (main_body fuel) ExceptKeyboardInterrupt
    (fun _ =>
       logging_error "Script interrupted by user." ;;
       raise (SystemExit (ExitCode 1))).

(** A whole run of the script, from the empty history. *)
Definition run (fuel : nat) (w : World) : history * result unit :=
  main fuel w [].

(** The status with which the interpreter leaves once [main] is over:
    0 after a normal return, the code of [sys.exit(code)], and 1 for
    [SystemExit] with a message and for an uncaught exception.  A run
    that is still polling has not exited. *)
Definition exit_status (r : result unit) : option Z :=
  match r with
  | Ret _ => Some 0%Z
  | Raise (SystemExit (ExitCode c)) => Some c
  | Raise _ => Some 1%Z
  | Spin => None
  end.

(** ** Observations on a run *)

(** Number of events of a history that satisfy [P]. *)
Definition count (P : event -> bool) (h : history) : nat :=
  List.length (List.filter P h).
Arguments count P h : simpl never.

(** A request that creates something on the server. *)
Definition is_post (e : event) : bool :=
  match e with
  | EvHttpPost _ _ _ _ => true
  | _ => false
  end.

(** A call of [subprocess.run]. *)
Definition is_run (e : event) : bool :=
  match e with
  | EvRun _ => true
  | _ => false
  end.

(** A directory creation or a file write. *)
Definition is_fs (e : event) : bool :=
  match e with
  | EvMakedirs _ | EvWriteFile _ _ => true
  | _ => false
  end.

(** A mail handed to the relay. *)
Definition is_sendmail (e : event) : bool :=
  match e with
  | EvSmtp (SmtpSendmail _ _ _) => true
  | _ => false
  end.

(** Any step of an SMTP session. *)
Definition is_smtp (e : event) : bool :=
  match e with
  | EvSmtp _ => true
  | _ => false
  end.

(** An informational log line. *)
Definition is_log_info (e : event) : bool :=
  match e with
  | EvLogInfo _ => true
  | _ => false
  end.

(** A computation that adds no event satisfying [P], whatever the world
    answers. *)
Definition quiet (P : event -> bool) {A} (m : M A) : Prop :=
  forall w h, count P (fst (m w h)) = count P h.

(** A computation that cannot be cut short by the fuel of the loop. *)
Definition halts {A} (m : M A) : Prop := forall w h, snd (m w h) <> Spin.

(** A computation that never drops an event of the history. *)
Definition grows {A} (m : M A) : Prop :=
  forall w h e, In e h -> In e (fst (m w h)).

(** The status probe of [check_agent_exists]. *)
Definition probe (a : Args) (headers : headers_t) : event :=
  EvHttpGet (jenkins_url a ++ "/computer/" ++ agent_name a ++ "/api/json")
    (Some headers) (Some (username a, api_token a)).

(** The steps of [main] before the existence check: the parsed
    arguments, the request headers and the history at the moment
    [check_agent_exists] is called, when the run gets that far. *)
Definition before_check (w : World) : option (Args * headers_t * history) :=
  match parse_arguments w [] with
  | (h0, Ret a) =>
      match get_csrf_token (jenkins_url a) (username a, api_token a) w h0 with
      | (h1, Ret csrf_token) =>
          match get_headers (Some csrf_token) w h1 with
          | (h2, Ret headers) => Some (a, headers, h2)
          | _ => None
          end
      | _ => None
      end
  | _ => None
  end.

(** What the server answers to the status probe of the run. *)
Definition probe_reply (w : World) : option (exn + Response) :=
  match before_check w with
  | Some (a, headers, h) => Some (http_reply w h (probe a headers))
  | None => None
  end.

(** The outcome of the call of [check_agent_exists] made by [main]. *)
Definition existence_check (w : World) : option (result bool) :=
  match before_check w with
  | Some (a, headers, h) =>
      Some (snd (check_agent_exists (jenkins_url a) (agent_name a) headers
                   (username a, api_token a) w h))
  | None => None
  end.

(** The steps of [main] before [monitor_service]: the parsed arguments
    and the history at the moment the monitor starts, when registration
    and installation have succeeded. *)
Definition before_monitor (w : World) : option (Args * history) :=
  match before_check w with
  | Some (a, headers, h) =>
      match (present <- check_agent_exists (jenkins_url a) (agent_name a)
                          headers (username a, api_token a) ;;
             (if negb present then
                create_agent (jenkins_url a) (agent_name a) headers
                  (username a, api_token a) (remote_fs a) (label a)
              else ret tt) ;;
             install_agent_service (agent_name a) (jenkins_url a) (remote_fs a)
               (username a) (api_token a)) w h with
      | (h', Ret _) => Some (a, h')
      | _ => None
      end
  | None => None
  end.

(** The same world with another value of [--executors]. *)
Definition with_executors (n : Z) (w : World) : World :=
  mkWorld
    (match argv_outcome w with
     | inl e => inl e
     | inr a =>
         inr (mkArgs (jenkins_url a) (username a) (api_token a) (agent_name a)
                (remote_fs a) (label a) n (config_file a))
     end)
    (platform_system w) (getenv w) (smtp_port_outcome w) (os_path_join w)
    (os_path_exists w) (http_reply w) (effect_reply w) (process_reply w).

(** A computation that behaves the same whatever [--executors] is. *)
Definition argv_free {A} (m : M A) : Prop :=
  forall n w h, m (with_executors n w) h = m w h.

(** ** Reading a unit file back *)

(** First element of a list on which [f] answers. *)
Fixpoint first_some {A B} (f : A -> option B) (l : list A) : option B :=
  match l with
  | [] => None
  | x :: r =>
      match f x with
      | Some y => Some y
      | None => first_some f r
      end
  end.

(** Modelled from the spec: the script only renders the unit file and
    has no reader for it.  The reader of the round-trip property takes
    the first line of the text that starts with [ExecStart=] and returns
    what follows on that line. *)
Definition parse_exec_start (unit_text : string) : option string :=
  first_some (PyStr.strip_prefix "ExecStart=") (PyStr.lines unit_text).

(** ** Sample environments *)

(** [posixpath.join(a, b)] for a relative [b]. *)
Definition posixpath_join (a b : string) : string :=
  if String.eqb a "" then b
  else if PyStr.endswith a "/" then a ++ b
  else a ++ "/" ++ b.

(** A response with the given status, a crumb in its JSON body and a
    three-byte payload. *)
Definition sample_response (status : Z) : Response :=
  mkResponse status "OK" "http://ci:8080/" "" "JAR"
    (inr (JObject [("crumbRequestField", JString "Jenkins-Crumb");
                   ("crumb", JString "abc")])).

Definition sample_args : Args :=
  mkArgs "http://ci:8080" "admin" "s3cret" "worker-1" "/var/agent" "" 4
    "config.json".

(** A host named [host] on which every call succeeds: the status probe
    is answered with [probe_status], every other request with 200, the
    service status command ends with [status_rc] and every other child
    with 0. *)
Definition sample_world (host : string) (probe_status status_rc : Z) : World :=
  mkWorld (inr sample_args) host (fun _ => Some "ops@example.org") (inr 587%Z)
    posixpath_join (fun _ _ => false)
    (fun _ e =>
       match e with
       | EvHttpGet _ (Some _) (Some _) => inr (sample_response probe_status)
       | _ => inr (sample_response 200)
       end)
    (fun _ _ => None)
    (fun _ cmd =>
       match cmd with
       | "systemctl" :: "is-active" :: _ => inr status_rc
       | _ => inr 0%Z
       end).

(** The same host with a mail relay that refuses the connection. *)
Definition sample_world_no_relay (host : string) (status_rc : Z) : World :=
  mkWorld (inr sample_args) host (fun _ => Some "ops@example.org") (inr 587%Z)
    posixpath_join (fun _ _ => false)
    (fun _ _ => inr (sample_response 200))
    (fun _ e =>
       match e with
       | EvSmtp (SmtpConnect _ _) => Some (OSError "Connection refused")
       | _ => None
       end)
    (fun _ cmd =>
       match cmd with
       | "systemctl" :: "is-active" :: _ => inr status_rc
       | _ => inr 0%Z
       end).

(** The history of a run on the Linux host without relay at the moment
    the monitor starts. *)
Definition sample_start : history :=
  Eval vm_compute in
    match before_monitor (sample_world_no_relay "Linux" 3) with
    | Some (_, h) => h
    | None => []
    end.

(** ** Further observations and sample environments *)

(** [d.get(k)] on an insertion-ordered dictionary. *)
Fixpoint dict_get (d : headers_t) (k : json) : option json :=
  match d with
  | [] => None
  | (k', v) :: r => if key_eqb k' k then Some v else dict_get r k
  end.

(** The request of [get_csrf_token]. *)
Definition crumb_request (jenkins_url : string) (auth : auth_t) : event :=
  EvHttpGet (jenkins_url ++ "/crumbIssuer/api/json") None (Some auth).

(** A host from which the server cannot be reached. *)
Definition sample_world_unreachable : World :=
  mkWorld (inr sample_args) "Linux" (fun _ => None) (inr 587%Z)
    posixpath_join (fun _ _ => true)
    (fun _ _ => inl (RequestException "Connection refused"))
    (fun _ _ => None) (fun _ _ => inr 0%Z).

(** The status codes on which [raise_for_status] raises. *)
Definition error_status (c : Z) : bool :=
  ((400 <=? c)%Z && (c <? 500)%Z) || ((500 <=? c)%Z && (c <? 600)%Z).


(** The line printed by the last statement of [main]. *)
Definition is_line_283 (e : event) : bool :=
  match e with
  | EvPrint msg => String.eqb msg "line 283"
  | _ => false
  end.

(** A computation that never returns a value. *)
Definition never_returns {A} (m : M A) : Prop :=
  forall w h a, snd (m w h) <> Ret a.

(** The steps of [main] before [install_agent_service]. *)
Definition registration : M Args :=
  args <- parse_arguments ;;
  let auth := (username args, api_token args) in
  csrf_token <- get_csrf_token (jenkins_url args) auth ;;
  headers <- get_headers (Some csrf_token) ;;
  present <- check_agent_exists (jenkins_url args) (agent_name args) headers auth ;;
  (if negb present then
     create_agent (jenkins_url args) (agent_name args) headers auth
       (remote_fs args) (label args)
   else ret tt) ;;
  ret args.

(** A Linux host on which the existence probe finds the node, with a
    given outcome of reading the SMTP port, given outcomes of the
    effects, and a given outcome of the status command. *)
Definition sample_host (port : exn + Z) (effects : event -> option exn)
    (status : exn + Z) : World :=
  mkWorld (inr sample_args) "Linux" (fun _ => Some "ops@example.org") port
    posixpath_join (fun _ _ => false)
    (fun _ _ => inr (sample_response 200))
    (fun _ e => effects e)
    (fun _ cmd =>
       match cmd with
       | "systemctl" :: "is-active" :: _ => status
       | _ => inr 0%Z
       end).

(** [time.sleep] is interrupted from the keyboard. *)
Definition interrupted_sleep (e : event) : option exn :=
  match e with
  | EvSleep _ => Some KeyboardInterrupt
  | _ => None
  end.

(** A pause of the polling loop. *)
Definition is_sleep (e : event) : bool :=
  match e with
  | EvSleep _ => true
  | _ => false
  end.

(** The request of [download_agent_jar]. *)
Definition jar_request (jenkins_url : string) : event :=
  EvHttpGet (jenkins_url ++ "/jnlpJars/agent.jar") None None.

(** The history of [download_agent_jar] once the working directory is
    there: unchanged when it exists, otherwise extended by its creation
    and the line that reports it. *)
Definition dir_ready (w : World) (h : history) (remote_fs : string) : history :=
  if os_path_exists w h remote_fs then h
  else EvPrint ("Directory " ++ remote_fs ++ " created.")
         :: EvMakedirs remote_fs :: h.

(** The working directory exists or can be created. *)
Definition dir_available (w : World) (h : history) (remote_fs : string) : Prop :=
  os_path_exists w h remote_fs = false ->
  effect_reply w h (EvMakedirs remote_fs) = None.

(** The effects of a host on which the working directory cannot be
    created. *)
Definition read_only_parent (e : event) : option exn :=
  match e with
  | EvMakedirs _ => Some (OSError "Permission denied")
  | _ => None
  end.

(** The effects of a host on which no file can be written. *)
Definition read_only_files (e : event) : option exn :=
  match e with
  | EvWriteFile _ _ => Some (OSError "Permission denied")
  | _ => None
  end.

(** * Properties *)

(** ** Strings *)

Lemma endswith_append_slash (u : string) : PyStr.endswith (u ++ "/") "/" = true.
Proof.
  induction u as [|c u IH]; [reflexivity|].
  cbn [String.append PyStr.endswith]. rewrite IH. apply orb_true_r.
Qed.

Lemma drop_last_append_slash (u : string) : PyStr.drop_last (u ++ "/") = u.
Proof.
  induction u as [|c u IH]; [reflexivity|].
  cbn [String.append PyStr.drop_last]. rewrite IH.
  destruct u; reflexivity.
Qed.

Lemma normalize_url_append_slash (u : string) : normalize_url (u ++ "/") = u.
Proof.
  unfold normalize_url. rewrite endswith_append_slash.
  apply drop_last_append_slash.
Qed.

Lemma normalize_url_fixed (u : string) :
  PyStr.endswith u "/" = false -> normalize_url u = u.
Proof. unfold normalize_url. intros ->. reflexivity. Qed.

Lemma append_assoc (a b c : string) : (a ++ b) ++ c = a ++ (b ++ c).
Proof. induction a as [|x a IH]; cbn; [reflexivity | now rewrite IH]. Qed.

Lemma has_LF_append (a b : string) :
  PyStr.has_LF (a ++ b) = PyStr.has_LF a || PyStr.has_LF b.
Proof.
  induction a as [|c a IH]; cbn; [reflexivity|].
  rewrite IH. apply orb_assoc.
Qed.

Lemma lines_nonempty (s : string) : PyStr.lines s <> [].
Proof.
  induction s as [|c s IH]; cbn [PyStr.lines]; [discriminate|].
  destruct (Ascii.eqb c PyStr.LF); [discriminate|].
  destruct (PyStr.lines s); discriminate.
Qed.

(** A text starting with a line free of line feeds splits after it. *)
Lemma lines_first (a rest : string) :
  PyStr.has_LF a = false ->
  PyStr.lines (a ++ nl ++ rest) = a :: PyStr.lines rest.
Proof.
  induction a as [|c a IH]; intros H.
  - reflexivity.
  - cbn [PyStr.has_LF] in H. apply orb_false_iff in H as [Hc Ha].
    cbn [String.append PyStr.lines]. rewrite Hc, (IH Ha). reflexivity.
Qed.

Lemma strip_prefix_append (p s : string) : PyStr.strip_prefix p (p ++ s) = Some s.
Proof.
  induction p as [|c p IH]; cbn; [reflexivity|].
  now rewrite Ascii.eqb_refl.
Qed.

Lemma prefix_append (p s : string) : String.prefix p (p ++ s) = true.
Proof.
  induction p as [|c p IH]; cbn; [now destruct s|].
  destruct (ascii_dec c c); [exact IH | congruence].
Qed.

Lemma contains_append (a b c : string) : PyStr.contains (a ++ b ++ c) b = true.
Proof.
  induction a as [|x a IH].
  - cbn [String.append]. destruct (b ++ c) eqn:E.
    + destruct b; [reflexivity | discriminate].
    + rewrite <- E. cbn [PyStr.contains]. unfold PyStr.contains.
      destruct (b ++ c) eqn:E'; rewrite <- E';
        rewrite prefix_append; reflexivity.
  - cbn [String.append PyStr.contains]. rewrite IH. apply orb_true_r.
Qed.

(** ** Counting events *)

Lemma count_cons (P : event -> bool) (e : event) (h : history) :
  count P (e :: h) = if P e then S (count P h) else count P h.
Proof. unfold count. cbn. destruct (P e); reflexivity. Qed.

Section Quiet.

Variable P : event -> bool.

Lemma quiet_ret {A} (a : A) : quiet P (ret a).
Proof. intros w h. reflexivity. Qed.

Lemma quiet_raise {A} (e : exn) : quiet P (@raise A e).
Proof. intros w h. reflexivity. Qed.

Lemma quiet_spin {A} : quiet P (@spin A).
Proof. intros w h. reflexivity. Qed.

Lemma quiet_ask {A} (f : World -> history -> A) : quiet P (ask f).
Proof. intros w h. reflexivity. Qed.

Lemma quiet_ask_outcome {A} (f : World -> exn + A) : quiet P (ask_outcome f).
Proof. intros w h. unfold ask_outcome. destruct (f w); reflexivity. Qed.

Lemma quiet_lift {A} (r : exn + A) : quiet P (lift r).
Proof. destruct r; intros w h; reflexivity. Qed.

Lemma quiet_emit (e : event) : P e = false -> quiet P (emit e).
Proof. intros He w h. unfold emit. cbn [fst]. rewrite count_cons, He. reflexivity. Qed.

Lemma quiet_effect (e : event) : P e = false -> quiet P (effect e).
Proof.
  intros He w h. unfold effect.
  destruct (effect_reply w h e); cbn [fst]; rewrite count_cons, He; reflexivity.
Qed.

Lemma quiet_http (e : event) : P e = false -> quiet P (http e).
Proof.
  intros He w h. unfold http.
  destruct (http_reply w h e); cbn [fst]; rewrite count_cons, He; reflexivity.
Qed.

Lemma quiet_subprocess_run (cmd : list string) (check : bool) :
  P (EvRun cmd) = false -> quiet P (subprocess_run cmd check).
Proof.
  intros He w h. unfold subprocess_run.
  destruct cmd; [cbn [fst]; rewrite count_cons, He; reflexivity|].
  destruct (process_reply w h (s :: cmd)) as [x|rc];
    [|destruct (check && negb (rc =? 0)%Z)];
    cbn [fst]; rewrite count_cons, He; reflexivity.
Qed.

Lemma quiet_raise_for_status (r : Response) : quiet P (raise_for_status r).
Proof.
  unfold raise_for_status.
  destruct ((400 <=? status_code r)%Z && (status_code r <? 500)%Z);
    [apply quiet_raise|].
  destruct ((500 <=? status_code r)%Z && (status_code r <? 600)%Z);
    [apply quiet_raise | apply quiet_ret].
Qed.

Lemma quiet_bind {A B} (m : M A) (k : A -> M B) :
  quiet P m -> (forall a, quiet P (k a)) -> quiet P (bind m k).
Proof.
  intros Hm Hk w h. unfold bind. specialize (Hm w h).
  destruct (m w h) as [h' [a|e|]]; cbn in *; [|assumption|assumption].
  rewrite (Hk a w h'). exact Hm.
Qed.

Lemma quiet_try_except {A} (m : M A) (cls : except_class)
    (handler : exn -> M A) :
  quiet P m -> (forall e, quiet P (handler e)) ->
  quiet P (try_except m cls handler).
Proof.
  intros Hm Hh w h. unfold try_except. specialize (Hm w h).
  destruct (m w h) as [h' [a|e|]]; cbn in *; [assumption| |assumption].
  destruct (isinstance e cls); cbn; [|assumption].
  rewrite (Hh e w h'). exact Hm.
Qed.

End Quiet.

(** Decompose a computation along its structure; the side conditions
    say that the events it can emit do not satisfy the predicate. *)
Ltac quiet_step :=
  lazymatch goal with
  | |- quiet _ (bind _ _) => apply quiet_bind; [|intro]
  | |- quiet _ (try_except _ _ _) => apply quiet_try_except; [|intro]
  | |- quiet _ (ret _) => apply quiet_ret
  | |- quiet _ (raise _) => apply quiet_raise
  | |- quiet _ spin => apply quiet_spin
  | |- quiet _ (ask _) => apply quiet_ask
  | |- quiet _ (ask_outcome _) => apply quiet_ask_outcome
  | |- quiet _ (lift _) => apply quiet_lift
  | |- quiet _ (raise_for_status _) => apply quiet_raise_for_status
  | |- quiet _ (emit _) => apply quiet_emit; reflexivity
  | |- quiet _ (effect _) => apply quiet_effect; reflexivity
  | |- quiet _ (http _) => apply quiet_http; reflexivity
  | |- quiet _ (subprocess_run _ _) => apply quiet_subprocess_run; reflexivity
  | |- quiet _ (if ?b then _ else _) => destruct b
  | |- quiet _ (match ?x with _ => _ end) => destruct x
  end.

Ltac quiet_tac :=
  cbv beta delta
    [logging_info logging_error print requests_get requests_post time_sleep
     platform_system_ os_getenv os_path_join_ os_path_exists_ parse_arguments
     smtp_session];
  cbv zeta;
  repeat quiet_step.

(** ** What each function can emit *)

Lemma quiet_post_get_csrf_token u a : quiet is_post (get_csrf_token u a).
Proof. unfold get_csrf_token. quiet_tac. Qed.

Lemma quiet_post_get_headers t : quiet is_post (get_headers t).
Proof. unfold get_headers. quiet_tac. Qed.

Lemma quiet_post_check u n hd a : quiet is_post (check_agent_exists u n hd a).
Proof. unfold check_agent_exists. quiet_tac. Qed.

Lemma quiet_post_send_email s b : quiet is_post (send_email s b).
Proof. unfold send_email. quiet_tac. Qed.

Lemma quiet_post_download u r : quiet is_post (download_agent_jar u r).
Proof. unfold download_agent_jar. quiet_tac. Qed.

Lemma quiet_run_download u r : quiet is_run (download_agent_jar u r).
Proof. unfold download_agent_jar. quiet_tac. Qed.

Lemma quiet_post_linux a b c d e f : quiet is_post (create_linux_service a b c d e f).
Proof. unfold create_linux_service. quiet_tac. Qed.

Lemma quiet_post_windows a b c d e f : quiet is_post (create_windows_service a b c d e f).
Proof. unfold create_windows_service. quiet_tac. Qed.

Lemma quiet_post_install a b c d e : quiet is_post (install_agent_service a b c d e).
Proof.
  unfold install_agent_service. quiet_tac;
    auto using quiet_post_download, quiet_post_linux, quiet_post_windows.
Qed.

Lemma quiet_post_cycle c a : quiet is_post (monitor_cycle c a).
Proof. unfold monitor_cycle. quiet_tac; apply quiet_post_send_email. Qed.

Lemma quiet_post_loop n c a : quiet is_post (monitor_loop n c a).
Proof.
  induction n; cbn [monitor_loop]; quiet_tac; auto using quiet_post_cycle.
Qed.

Lemma quiet_post_monitor n a : quiet is_post (monitor_service n a).
Proof. unfold monitor_service. quiet_tac. apply quiet_post_loop. Qed.

Lemma quiet_info_send_email s b : quiet is_log_info (send_email s b).
Proof. unfold send_email. quiet_tac. Qed.

(** ** Registration *)

Lemma create_agent_posts_once u n hd a r l w h :
  count is_post (fst (create_agent u n hd a r l w h)) = S (count is_post h).
Proof.
  unfold create_agent, try_except, bind at 1, requests_post, http.
  destruct (http_reply w h _) as [x|resp].
  - destruct (isinstance x ExceptRequestException); cbn.
    + rewrite !count_cons. reflexivity.
    + rewrite !count_cons. reflexivity.
  - set (h1 := _ :: h).
    assert (H1 : count is_post h1 = S (count is_post h))
      by (unfold h1; rewrite count_cons; reflexivity).
    rewrite <- H1.
    match goal with
    | |- count _ (fst (match ?m w h1 with _ => _ end)) = _ =>
        assert (Q : quiet is_post m) by quiet_tac;
        specialize (Q w h1); destruct (m w h1) as [h' [v|e|]]
    end; cbn [fst] in *; try assumption.
    destruct (isinstance e ExceptRequestException); cbn; [|assumption].
    rewrite !count_cons. cbn. assumption.
Qed.

Lemma main_count fuel w h :
  count is_post (fst (main fuel w h)) = count is_post (fst (main_body fuel w h)).
Proof.
  unfold main, try_except.
  destruct (main_body fuel w h) as [h' [v|e|]]; try reflexivity.
  destruct (isinstance e ExceptKeyboardInterrupt); [|reflexivity].
  cbn. rewrite count_cons. reflexivity.
Qed.

Lemma bind_count_quiet {A B} (m : M A) (k : A -> M B) w h :
  (forall a, quiet is_post (k a)) ->
  count is_post (fst (bind m k w h)) = count is_post (fst (m w h)).
Proof.
  intros Hk. unfold bind. destruct (m w h) as [h' [a|e|]]; try reflexivity.
  apply Hk.
Qed.

Lemma run_posts fuel w :
  count is_post (fst (run fuel w)) =
  match existence_check w with
  | Some (Ret false) => 1
  | _ => 0
  end.
Proof.
  unfold run. rewrite main_count.
  unfold existence_check, before_check, main_body.
  unfold bind at 1.
  pose proof (quiet_ask_outcome is_post argv_outcome w []) as Q0.
  fold parse_arguments in Q0.
  destruct (parse_arguments w []) as [h0 [a|e|]]; cbn [fst] in *;
    try exact Q0.
  unfold bind at 1.
  pose proof (quiet_post_get_csrf_token (jenkins_url a)
                (username a, api_token a) w h0) as Q1.
  destruct (get_csrf_token _ _ w h0) as [h1 [tok|e|]]; cbn [fst] in *;
    try (rewrite Q1; exact Q0).
  unfold bind at 1.
  pose proof (quiet_post_get_headers (Some tok) w h1) as Q2.
  destruct (get_headers _ w h1) as [h2 [hd|e|]]; cbn [fst] in *;
    try (rewrite Q2, Q1; exact Q0).
  unfold bind at 1.
  pose proof (quiet_post_check (jenkins_url a) (agent_name a) hd
                (username a, api_token a) w h2) as Q3.
  destruct (check_agent_exists _ _ _ _ w h2) as [h3 [b|e|]]; cbn [fst snd] in *;
    try (rewrite Q3, Q2, Q1; exact Q0).
  rewrite bind_count_quiet.
  - destruct b; cbn [negb].
    + cbn. rewrite Q3, Q2, Q1; exact Q0.
    + rewrite create_agent_posts_once, Q3, Q2, Q1, Q0. reflexivity.
  - intros _. quiet_tac;
      auto using quiet_post_install, quiet_post_monitor.
Qed.

Lemma check_agent_exists_on_response u n hd a w h r :
  http_reply w h (EvHttpGet (u ++ "/computer/" ++ n ++ "/api/json")
                    (Some hd) (Some a)) = inr r ->
  snd (check_agent_exists u n hd a w h) =
  if (status_code r =? 200)%Z then Ret true
  else if (status_code r =? 404)%Z then Ret false
  else Raise (SystemExit
                (ExitMsg ("Error: Unexpected response code "
                            ++ PyStr.of_Z (status_code r)))).
Proof.
  intros Hr.
  unfold check_agent_exists, try_except, bind at 1, requests_get, http.
  rewrite Hr.
  destruct (status_code r =? 200)%Z; [reflexivity|].
  destruct (status_code r =? 404)%Z; reflexivity.
Qed.

Lemma main_body_at_check fuel w a hd h :
  before_check w = Some (a, hd, h) ->
  main_body fuel w [] =
  (present <- check_agent_exists (jenkins_url a) (agent_name a) hd
                (username a, api_token a) ;;
   (if negb present then
      create_agent (jenkins_url a) (agent_name a) hd (username a, api_token a)
        (remote_fs a) (label a)
    else ret tt) ;;
   install_agent_service (agent_name a) (jenkins_url a) (remote_fs a)
     (username a) (api_token a) ;;
   monitor_service fuel (agent_name a) ;;
   print "line 283") w h.
Proof.
  unfold before_check, main_body.
  unfold bind at 1.
  destruct (parse_arguments w []) as [h0 [a0|e|]]; try discriminate.
  unfold bind at 1.
  destruct (get_csrf_token _ _ w h0) as [h1 [tok|e|]]; try discriminate.
  unfold bind at 1.
  destruct (get_headers _ w h1) as [h2 [hd0|e|]]; try discriminate.
  intros [= -> -> ->]. reflexivity.
Qed.

Lemma main_system_exit fuel w h h' x :
  main_body fuel w h = (h', Raise (SystemExit x)) ->
  main fuel w h = (h', Raise (SystemExit x)).
Proof. intros H. unfold main, try_except. rewrite H. reflexivity. Qed.

Lemma run_fails_at_check fuel w x :
  existence_check w = Some (Raise (SystemExit x)) ->
  snd (run fuel w) = Raise (SystemExit x).
Proof.
  unfold existence_check, run.
  destruct (before_check w) as [[[a hd] h]|] eqn:E; [|discriminate].
  intros [= H].
  destruct (check_agent_exists (jenkins_url a) (agent_name a) hd
              (username a, api_token a) w h) as [h' r] eqn:Ec.
  cbn [snd] in H. subst r.
  rewrite (main_system_exit fuel w [] h' x); [reflexivity|].
  rewrite (main_body_at_check fuel w a hd h E).
  unfold bind at 1. rewrite Ec. reflexivity.
Qed.

Lemma existence_check_on_response w r :
  probe_reply w = Some (inr r) ->
  existence_check w =
  Some (if (status_code r =? 200)%Z then Ret true
        else if (status_code r =? 404)%Z then Ret false
        else Raise (SystemExit
                      (ExitMsg ("Error: Unexpected response code "
                                  ++ PyStr.of_Z (status_code r))))).
Proof.
  unfold probe_reply, existence_check, probe.
  destruct (before_check w) as [[[a hd] h]|]; [|discriminate].
  intros [= H]. f_equal. apply check_agent_exists_on_response. exact H.
Qed.

(** C6.  For every HTTP response to the status probe,
    [check_agent_exists] returns [True] exactly when the status code is
    200 and [False] exactly when it is 404; for any other status code it
    returns no boolean but raises [SystemExit] with the message naming
    the unexpected code, and a run that meets such a status at its probe
    ends there with exit status 1. *)
Theorem check_agent_exists_by_status u n hd a w h r :
  http_reply w h (EvHttpGet (u ++ "/computer/" ++ n ++ "/api/json")
                    (Some hd) (Some a)) = inr r ->
  (snd (check_agent_exists u n hd a w h) = Ret true <-> status_code r = 200%Z)
  /\ (snd (check_agent_exists u n hd a w h) = Ret false <-> status_code r = 404%Z)
  /\ (status_code r <> 200%Z -> status_code r <> 404%Z ->
      snd (check_agent_exists u n hd a w h) =
      Raise (SystemExit (ExitMsg ("Error: Unexpected response code "
                                    ++ PyStr.of_Z (status_code r))))
      /\ exit_status
           (Raise (SystemExit (ExitMsg ("Error: Unexpected response code "
                                          ++ PyStr.of_Z (status_code r)))))
         = Some 1%Z)
  /\ (forall fuel w0 r0,
        probe_reply w0 = Some (inr r0) ->
        status_code r0 <> 200%Z -> status_code r0 <> 404%Z ->
        snd (run fuel w0) =
        Raise (SystemExit (ExitMsg ("Error: Unexpected response code "
                                      ++ PyStr.of_Z (status_code r0))))
        /\ exit_status (snd (run fuel w0)) = Some 1%Z).
Proof.
  intros Hr. rewrite (check_agent_exists_on_response _ _ _ _ _ _ _ Hr).
  repeat split.
  - destruct (Z.eqb_spec (status_code r) 200); [trivial|].
    destruct (status_code r =? 404)%Z; discriminate.
  - intros ->. reflexivity.
  - destruct (Z.eqb_spec (status_code r) 200) as [E|E]; [discriminate|].
    destruct (Z.eqb_spec (status_code r) 404); [trivial | discriminate].
  - intros E. rewrite E. reflexivity.
  - destruct (Z.eqb_spec (status_code r) 200); [contradiction|].
    destruct (Z.eqb_spec (status_code r) 404); [contradiction | reflexivity].
  - pose proof (existence_check_on_response _ _ H) as E.
    destruct (Z.eqb_spec (status_code r0) 200); [contradiction|].
    destruct (Z.eqb_spec (status_code r0) 404); [contradiction|].
    apply run_fails_at_check. exact E.
  - pose proof (existence_check_on_response _ _ H) as E.
    destruct (Z.eqb_spec (status_code r0) 200); [contradiction|].
    destruct (Z.eqb_spec (status_code r0) 404); [contradiction|].
    rewrite (run_fails_at_check fuel w0 _ E). reflexivity.
Qed.

Lemma check_agent_exists_by_status_witness :
  http_reply (sample_world "Linux" 404 3) []
    (EvHttpGet ("http://ci:8080" ++ "/computer/" ++ "worker-1" ++ "/api/json")
       (Some []) (Some ("admin", "s3cret"))) = inr (sample_response 404)
  /\ (snd (check_agent_exists "http://ci:8080" "worker-1" [] ("admin", "s3cret")
             (sample_world "Linux" 404 3) []) = Ret false
      <-> status_code (sample_response 404) = 404%Z).
Proof.
  split; [reflexivity|].
  apply (check_agent_exists_by_status "http://ci:8080" "worker-1" []
           ("admin", "s3cret") (sample_world "Linux" 404 3) []
           (sample_response 404)).
  reflexivity.
Defined.

(** C2.  [create_agent] is the only function that posts and posts once
    per call ([create_agent_posts_once], [run_posts]), so the POST
    requests of a run count its calls.  In every run there is at most
    one; there is exactly one if and only if the call of
    [check_agent_exists] made by [main] returned [False]; a probe
    answered with 404 gives exactly one call, a probe answered with 200
    gives none. *)
Theorem create_agent_gated_by_check (fuel : nat) (w : World) :
  count is_post (fst (run fuel w)) <= 1
  /\ (count is_post (fst (run fuel w)) = 1
      <-> existence_check w = Some (Ret false))
  /\ (forall r, probe_reply w = Some (inr r) -> status_code r = 404%Z ->
      count is_post (fst (run fuel w)) = 1)
  /\ (forall r, probe_reply w = Some (inr r) -> status_code r = 200%Z ->
      count is_post (fst (run fuel w)) = 0).
Proof.
  rewrite run_posts. repeat split.
  - destruct (existence_check w) as [[[|]| |]|]; lia.
  - destruct (existence_check w) as [[[|]| |]|]; intros; (reflexivity || discriminate).
  - intros ->. reflexivity.
  - intros r H E. rewrite (existence_check_on_response w r H), E. reflexivity.
  - intros r H E. rewrite (existence_check_on_response w r H), E. reflexivity.
Qed.

(** ** Installation on an unsupported platform *)

Lemma install_unsupported_unfold agent u fs user tok w h :
  platform_system w <> "Linux" -> platform_system w <> "Windows" ->
  install_agent_service agent u fs user tok w h =
  match download_agent_jar u fs w h with
  | (h', Ret _) =>
      (h', Raise (SystemExit
                    (ExitMsg ("Unsupported platform: " ++ platform_system w))))
  | (h', Raise e) => (h', Raise e)
  | (h', Spin) => (h', Spin)
  end.
Proof.
  intros HL HW. unfold install_agent_service, platform_system_, ask.
  unfold bind at 1. unfold bind at 1.
  destruct (download_agent_jar u fs w h) as [h' [p|e|]]; try reflexivity.
  apply String.eqb_neq in HL, HW. rewrite HL, HW. reflexivity.
Qed.

(** C1, as the script has it.  On a platform that is neither Linux nor
    Windows, [install_agent_service] first runs [download_agent_jar]:
    it fails with [SystemExit("Unsupported platform: ...")] exactly when
    the download returns, and with the error of the download otherwise.
    It never returns normally and never calls [subprocess.run]. *)
Theorem install_unsupported_platform agent u fs user tok w h :
  platform_system w <> "Linux" -> platform_system w <> "Windows" ->
  install_agent_service agent u fs user tok w h =
  match download_agent_jar u fs w h with
  | (h', Ret _) =>
      (h', Raise (SystemExit
                    (ExitMsg ("Unsupported platform: " ++ platform_system w))))
  | (h', Raise e) => (h', Raise e)
  | (h', Spin) => (h', Spin)
  end
  /\ count is_run (fst (install_agent_service agent u fs user tok w h))
     = count is_run h
  /\ (forall v, snd (install_agent_service agent u fs user tok w h) <> Ret v).
Proof.
  intros HL HW.
  pose proof (install_unsupported_unfold agent u fs user tok w h HL HW) as E.
  split; [exact E|]. rewrite E.
  pose proof (quiet_run_download u fs w h) as Q.
  destruct (download_agent_jar u fs w h) as [h' [p|e|]]; cbn [fst snd] in *;
    (split; [exact Q | intros v; discriminate]).
Qed.

Lemma install_unsupported_platform_witness :
  platform_system (sample_world "Darwin" 404 0) <> "Linux"
  /\ platform_system (sample_world "Darwin" 404 0) <> "Windows"
  /\ count is_run
       (fst (install_agent_service "worker-1" "http://ci:8080" "/var/agent"
               "admin" "s3cret" (sample_world "Darwin" 404 0) []))
     = count is_run [].
Proof.
  split; [discriminate|]. split; [discriminate|].
  apply (install_unsupported_platform "worker-1" "http://ci:8080" "/var/agent"
           "admin" "s3cret" (sample_world "Darwin" 404 0) []); discriminate.
Defined.

(** On a host named Darwin where every call succeeds the working
    directory is created and the jar is written before the failure. *)
Lemma install_unsupported_platform_side_effects :
  platform_system (sample_world "Darwin" 404 0) <> "Linux"
  /\ platform_system (sample_world "Darwin" 404 0) <> "Windows"
  /\ install_agent_service "worker-1" "http://ci:8080" "/var/agent"
       "admin" "s3cret" (sample_world "Darwin" 404 0) []
     = ([EvPrint "Downloaded agent.jar to /var/agent/agent.jar";
         EvWriteFile "/var/agent/agent.jar" "JAR";
         EvHttpGet "http://ci:8080/jnlpJars/agent.jar" None None;
         EvPrint "Directory /var/agent created.";
         EvMakedirs "/var/agent"],
        Raise (SystemExit (ExitMsg "Unsupported platform: Darwin")))
  /\ count is_fs
       (fst (install_agent_service "worker-1" "http://ci:8080" "/var/agent"
               "admin" "s3cret" (sample_world "Darwin" 404 0) []))
     <> count is_fs [].
Proof.
  split; [discriminate|]. split; [discriminate|].
  split; [reflexivity | discriminate].
Qed.

(** ** Computations that cannot run out of fuel *)

Lemma halts_ret {A} (a : A) : halts (ret a).
Proof. intros w h. discriminate. Qed.

Lemma halts_raise {A} (e : exn) : halts (@raise A e).
Proof. intros w h. discriminate. Qed.

Lemma halts_ask {A} (f : World -> history -> A) : halts (ask f).
Proof. intros w h. discriminate. Qed.

Lemma halts_ask_outcome {A} (f : World -> exn + A) : halts (ask_outcome f).
Proof. intros w h. unfold ask_outcome. destruct (f w); discriminate. Qed.

Lemma halts_emit (e : event) : halts (emit e).
Proof. intros w h. discriminate. Qed.

Lemma halts_effect (e : event) : halts (effect e).
Proof. intros w h. unfold effect. destruct (effect_reply w h e); discriminate. Qed.

Lemma halts_subprocess_run cmd check : halts (subprocess_run cmd check).
Proof.
  intros w h. unfold subprocess_run. destruct cmd; [discriminate|].
  destruct (process_reply w h (s :: cmd)) as [x|rc]; [discriminate|].
  destruct (check && negb (rc =? 0)%Z); discriminate.
Qed.

Lemma halts_bind {A B} (m : M A) (k : A -> M B) :
  halts m -> (forall a, halts (k a)) -> halts (bind m k).
Proof.
  intros Hm Hk w h. unfold bind. specialize (Hm w h).
  destruct (m w h) as [h' [a|e|]]; cbn in *;
    [apply Hk | discriminate | contradiction].
Qed.

Lemma halts_try_except {A} (m : M A) cls (handler : exn -> M A) :
  halts m -> (forall e, halts (handler e)) -> halts (try_except m cls handler).
Proof.
  intros Hm Hh w h. unfold try_except. specialize (Hm w h).
  destruct (m w h) as [h' [a|e|]]; cbn in *; [discriminate| |contradiction].
  destruct (isinstance e cls); [apply Hh | discriminate].
Qed.

Ltac halts_step :=
  lazymatch goal with
  | |- halts (bind _ _) => apply halts_bind; [|intro]
  | |- halts (try_except _ _ _) => apply halts_try_except; [|intro]
  | |- halts (ret _) => apply halts_ret
  | |- halts (raise _) => apply halts_raise
  | |- halts (ask _) => apply halts_ask
  | |- halts (ask_outcome _) => apply halts_ask_outcome
  | |- halts (emit _) => apply halts_emit
  | |- halts (effect _) => apply halts_effect
  | |- halts (subprocess_run _ _) => apply halts_subprocess_run
  | |- halts (if ?b then _ else _) => destruct b
  end.

Ltac halts_tac :=
  cbv beta delta
    [logging_info logging_error print time_sleep os_getenv smtp_session];
  cbv zeta;
  repeat halts_step.

Lemma halts_send_email s b : halts (send_email s b).
Proof. unfold send_email. halts_tac. Qed.

Lemma halts_monitor_cycle cmd agent : halts (monitor_cycle cmd agent).
Proof. unfold monitor_cycle. halts_tac. apply halts_send_email. Qed.

(** A loop that is still running after [k] turns goes on from the
    history it has reached. *)
Lemma monitor_loop_resume k n cmd agent w h h0 :
  monitor_loop k cmd agent w h = (h0, Spin) ->
  monitor_loop (k + n) cmd agent w h = monitor_loop n cmd agent w h0.
Proof.
  revert h. induction k as [|k IH]; intros h H.
  - cbn in H. injection H as ->. reflexivity.
  - cbn [Nat.add monitor_loop] in *. unfold bind in *.
    pose proof (halts_monitor_cycle cmd agent w h) as Hc.
    destruct (monitor_cycle cmd agent w h) as [h1 [[]|e|]]; cbn [snd] in Hc.
    + apply IH. exact H.
    + discriminate.
    + contradiction.
Qed.

(** The handler of [monitor_service] lets [SystemExit] through. *)
Lemma monitor_service_system_exit fuel agent w h h' x :
  monitor_loop fuel (service_status_cmd (platform_system w) agent) agent w h
  = (h', Raise (SystemExit x)) ->
  monitor_service fuel agent w h = (h', Raise (SystemExit x)).
Proof.
  intros H. unfold monitor_service, platform_system_, ask.
  unfold bind. cbv zeta. unfold try_except. rewrite H. reflexivity.
Qed.

Lemma monitor_cycle_on_returncode cmd agent w h rc :
  cmd <> [] -> process_reply w h cmd = inr rc ->
  monitor_cycle cmd agent w h =
  ((if negb (rc =? 0)%Z then
      send_email ("Service Failure: " ++ agent)
        ("The Jenkins agent service '" ++ agent
           ++ "' has failed or stopped unexpectedly.")
    else
      logging_info ("The Jenkins agent service '" ++ agent
                      ++ "' is running normally.") ;;
      print ("The Jenkins agent service '" ++ agent
               ++ "' is running normally.")) ;;
   time_sleep 20) w (EvRun cmd :: h).
Proof.
  intros Hc Hr. unfold monitor_cycle. unfold bind at 1.
  unfold subprocess_run. destruct cmd as [|c cmd]; [contradiction|].
  rewrite Hr. reflexivity.
Qed.

(** C3.  The turn of the loop is decided by the return code of the
    status command alone.  Code 0: the turn logs and prints the
    "running normally" line, then sleeps; it takes no SMTP step.  Any
    other code: the turn is [send_email] with the failure subject and
    body, then the sleep; it logs no informational line. *)
Theorem monitor_cycle_by_returncode cmd agent w h rc :
  cmd <> [] -> process_reply w h cmd = inr rc ->
  (rc = 0%Z ->
   monitor_cycle cmd agent w h =
   time_sleep 20 w
     (EvPrint ("The Jenkins agent service '" ++ agent ++ "' is running normally.")
        :: EvLogInfo ("The Jenkins agent service '" ++ agent
                        ++ "' is running normally.")
        :: EvRun cmd :: h)
   /\ count is_smtp (fst (monitor_cycle cmd agent w h)) = count is_smtp h
   /\ count is_log_info (fst (monitor_cycle cmd agent w h))
      = S (count is_log_info h))
  /\ (rc <> 0%Z ->
      monitor_cycle cmd agent w h =
      (send_email ("Service Failure: " ++ agent)
         ("The Jenkins agent service '" ++ agent
            ++ "' has failed or stopped unexpectedly.") ;;
       time_sleep 20) w (EvRun cmd :: h)
      /\ count is_log_info (fst (monitor_cycle cmd agent w h))
         = count is_log_info h).
Proof.
  intros Hc Hr.
  rewrite (monitor_cycle_on_returncode cmd agent w h rc Hc Hr).
  split.
  - intros ->. cbn [Z.eqb negb].
    assert (E : forall m, ((logging_info m ;; print m) ;; time_sleep 20) w (EvRun cmd :: h)
                = time_sleep 20 w (EvPrint m :: EvLogInfo m :: EvRun cmd :: h))
      by reflexivity.
    rewrite E. split; [reflexivity|].
    unfold time_sleep, effect.
    destruct (effect_reply w _ (EvSleep 20)); cbn [fst];
      rewrite !count_cons; cbn; split; reflexivity.
  - intros Hn. apply Z.eqb_neq in Hn. rewrite Hn. cbn [negb].
    split; [reflexivity|].
    assert (Q : quiet is_log_info
                  (send_email ("Service Failure: " ++ agent)
                     ("The Jenkins agent service '" ++ agent
                        ++ "' has failed or stopped unexpectedly.") ;;
                   time_sleep 20))
      by (quiet_tac; apply quiet_info_send_email).
    rewrite (Q w (EvRun cmd :: h)), count_cons. reflexivity.
Qed.

Lemma monitor_cycle_by_returncode_witness :
  ["systemctl"; "is-active"; "worker-1.service"] <> []
  /\ process_reply (sample_world "Linux" 404 3) []
       ["systemctl"; "is-active"; "worker-1.service"] = inr 3%Z
  /\ count is_log_info
       (fst (monitor_cycle ["systemctl"; "is-active"; "worker-1.service"]
               "worker-1" (sample_world "Linux" 404 3) []))
     = count is_log_info [].
Proof.
  split; [discriminate|]. split; [reflexivity|].
  apply (monitor_cycle_by_returncode
           ["systemctl"; "is-active"; "worker-1.service"] "worker-1"
           (sample_world "Linux" 404 3) [] 3%Z);
    [discriminate | reflexivity | discriminate].
Defined.

(** ** The monitor *)

Lemma service_status_cmd_unsupported p agent :
  p <> "Linux" -> p <> "Windows" -> service_status_cmd p agent = [].
Proof.
  intros HL HW. unfold service_status_cmd.
  apply String.eqb_neq in HL, HW. rewrite HL, HW. reflexivity.
Qed.

(** C10.  On a platform that is neither Linux nor Windows the status
    command is the empty list; the first [subprocess.run] raises, the
    handler of [monitor_service] logs the error and raises
    [SystemExit].  The history gains no informational line and no SMTP
    step, and the exit status is 1. *)
Theorem monitor_service_unsupported_platform fuel agent w h :
  platform_system w <> "Linux" -> platform_system w <> "Windows" ->
  service_status_cmd (platform_system w) agent = []
  /\ monitor_service (S fuel) agent w h =
     (EvLogError "Failed to monitor the service: list index out of range"
        :: EvRun [] :: h,
      Raise (SystemExit
               (ExitMsg "Error monitoring service: list index out of range")))
  /\ count is_log_info (fst (monitor_service (S fuel) agent w h))
     = count is_log_info h
  /\ count is_smtp (fst (monitor_service (S fuel) agent w h)) = count is_smtp h
  /\ exit_status (snd (monitor_service (S fuel) agent w h)) = Some 1%Z.
Proof.
  intros HL HW.
  pose proof (service_status_cmd_unsupported _ agent HL HW) as E.
  split; [exact E|].
  assert (R : monitor_service (S fuel) agent w h =
              (EvLogError "Failed to monitor the service: list index out of range"
                 :: EvRun [] :: h,
               Raise (SystemExit
                        (ExitMsg "Error monitoring service: list index out of range")))).
  { unfold monitor_service, platform_system_, ask. unfold bind at 1.
    cbv zeta. rewrite E. reflexivity. }
  rewrite R. cbn [fst snd]. rewrite !count_cons. cbn.
  repeat split; reflexivity.
Qed.

Lemma monitor_service_unsupported_platform_witness :
  platform_system (sample_world "Darwin" 404 0) <> "Linux"
  /\ platform_system (sample_world "Darwin" 404 0) <> "Windows"
  /\ monitor_service 3 "worker-1" (sample_world "Darwin" 404 0) [] =
     ([EvLogError "Failed to monitor the service: list index out of range";
       EvRun []],
      Raise (SystemExit
               (ExitMsg "Error monitoring service: list index out of range"))).
Proof.
  split; [discriminate|]. split; [discriminate|].
  apply (monitor_service_unsupported_platform 2 "worker-1"
           (sample_world "Darwin" 404 0) []); discriminate.
Defined.

Lemma bind_effect_ret {B} ev (k : unit -> M B) w h :
  effect_reply w h ev = None -> bind (effect ev) k w h = k tt w (ev :: h).
Proof. intros E. unfold bind, effect. rewrite E. reflexivity. Qed.

Lemma bind_effect_raise {B} ev (k : unit -> M B) w h x :
  effect_reply w h ev = Some x -> bind (effect ev) k w h = (ev :: h, Raise x).
Proof. intros E. unfold bind, effect. rewrite E. reflexivity. Qed.

(** Once the port has been read, [send_email] is its guarded session. *)
Lemma send_email_unfold subject body w h port :
  smtp_port_outcome w = inr port ->
  send_email subject body w h =
  try_except
    (smtp_session (getenv w "SMTP_SERVER") port (getenv w "SMTP_USER")
       (getenv w "SMTP_PASSWORD") (getenv w "EMAIL_FROM") (getenv w "EMAIL_TO")
       (mkMail (getenv w "EMAIL_FROM") (getenv w "EMAIL_TO") subject body))
    ExceptException
    (fun e =>
       logging_error ("Failed to send email alert: " ++ exn_str e) ;;
       raise (SystemExit (ExitMsg ("Error sending email: " ++ exn_str e)))) w h.
Proof.
  intros Hp. unfold send_email, os_getenv, ask, ask_outcome.
  unfold bind at 1. unfold bind at 1. unfold bind at 1. unfold bind at 1.
  rewrite Hp. reflexivity.
Qed.

Ltac session_step :=
  match goal with
  | |- context [bind (effect ?ev) ?k ?w ?h] =>
      let E := fresh "E" in
      destruct (effect_reply w h ev) as [?x|] eqn:E;
      [ rewrite (bind_effect_raise ev k w h _ E)
      | rewrite (bind_effect_ret ev k w h E) ]
  end.

(** A notification that succeeds leaves exactly the six events of a
    complete session. *)
Lemma send_email_success subject body w h port :
  smtp_port_outcome w = inr port ->
  snd (send_email subject body w h) = Ret tt ->
  fst (send_email subject body w h) =
  EvPrint ("Alert email sent to " ++ str_opt (getenv w "EMAIL_TO"))
    :: EvSmtp SmtpQuit
    :: EvSmtp (SmtpSendmail (getenv w "EMAIL_FROM") (getenv w "EMAIL_TO")
                 (mkMail (getenv w "EMAIL_FROM") (getenv w "EMAIL_TO")
                    subject body))
    :: EvSmtp (SmtpLogin (getenv w "SMTP_USER") (getenv w "SMTP_PASSWORD"))
    :: EvSmtp SmtpStartTls
    :: EvSmtp (SmtpConnect (getenv w "SMTP_SERVER") port)
    :: h.
Proof.
  intros Hp. rewrite (send_email_unfold subject body w h port Hp).
  unfold try_except, smtp_session.
  do 5 (session_step;
        [match goal with
         | |- context [isinstance ?x ExceptException] =>
             destruct (isinstance x ExceptException); cbn; discriminate
         end|]).
  intros _. reflexivity.
Qed.

Lemma prefix_refl (s : string) : String.prefix s s = true.
Proof.
  induction s as [|c s IH]; cbn; [reflexivity|].
  destruct (ascii_dec c c); [exact IH | congruence].
Qed.

Lemma contains_suffix (a b : string) : PyStr.contains (a ++ b) b = true.
Proof.
  induction a as [|x a IH].
  - cbn [String.append]. destruct b; cbn [PyStr.contains];
      rewrite prefix_refl; reflexivity.
  - cbn [String.append PyStr.contains]. rewrite IH. apply orb_true_r.
Qed.

(** One failing turn whose mail goes out. *)
Lemma monitor_cycle_alert cmd agent w h rc port :
  cmd <> [] -> process_reply w h cmd = inr rc -> rc <> 0%Z ->
  smtp_port_outcome w = inr port ->
  snd (send_email ("Service Failure: " ++ agent)
         ("The Jenkins agent service '" ++ agent
            ++ "' has failed or stopped unexpectedly.") w (EvRun cmd :: h))
  = Ret tt ->
  effect_reply w
    (fst (send_email ("Service Failure: " ++ agent)
            ("The Jenkins agent service '" ++ agent
               ++ "' has failed or stopped unexpectedly.") w (EvRun cmd :: h)))
    (EvSleep 20) = None ->
  monitor_cycle cmd agent w h =
  (EvSleep 20
     :: EvPrint ("Alert email sent to " ++ str_opt (getenv w "EMAIL_TO"))
     :: EvSmtp SmtpQuit
     :: EvSmtp (SmtpSendmail (getenv w "EMAIL_FROM") (getenv w "EMAIL_TO")
                  (mkMail (getenv w "EMAIL_FROM") (getenv w "EMAIL_TO")
                     ("Service Failure: " ++ agent)
                     ("The Jenkins agent service '" ++ agent
                        ++ "' has failed or stopped unexpectedly.")))
     :: EvSmtp (SmtpLogin (getenv w "SMTP_USER") (getenv w "SMTP_PASSWORD"))
     :: EvSmtp SmtpStartTls
     :: EvSmtp (SmtpConnect (getenv w "SMTP_SERVER") port)
     :: EvRun cmd :: h,
   Ret tt).
Proof.
  intros Hc Hr Hn Hp Hs Hz.
  rewrite (monitor_cycle_on_returncode cmd agent w h rc Hc Hr).
  apply Z.eqb_neq in Hn. rewrite Hn. cbn [negb].
  pose proof (send_email_success _ _ w (EvRun cmd :: h) port Hp Hs) as Hf.
  unfold bind, time_sleep, effect.
  destruct (send_email _ _ w (EvRun cmd :: h)) as [h1 r].
  cbn [fst snd] in *. subst r h1. rewrite Hz. reflexivity.
Qed.

(** In a world where the service never answers 0 and no call fails,
    [n] turns of the loop send [n] mails and the loop is still running. *)
Lemma monitor_loop_realerts cmd agent w port :
  cmd <> [] -> smtp_port_outcome w = inr port ->
  (forall h, exists rc, process_reply w h cmd = inr rc /\ rc <> 0%Z) ->
  (forall h ev, effect_reply w h ev = None) ->
  forall n h, exists hn,
    monitor_loop n cmd agent w h = (hn, Spin)
    /\ count is_sendmail hn = n + count is_sendmail h.
Proof.
  intros Hc Hp Hfail Hok n. induction n as [|n IH]; intros h.
  - exists h. split; reflexivity.
  - destruct (Hfail h) as [rc [Hr Hn]].
    assert (Hs : snd (send_email ("Service Failure: " ++ agent)
                        ("The Jenkins agent service '" ++ agent
                           ++ "' has failed or stopped unexpectedly.")
                        w (EvRun cmd :: h)) = Ret tt).
    { rewrite (send_email_unfold _ _ w _ port Hp).
      unfold try_except, smtp_session.
      do 5 (rewrite bind_effect_ret by apply Hok). reflexivity. }
    pose proof (monitor_cycle_alert cmd agent w h rc port Hc Hr Hn Hp Hs
                  (Hok _ _)) as E.
    cbn [monitor_loop]. unfold bind at 1. rewrite E.
    match goal with
    | |- context [monitor_loop n cmd agent w ?h1] =>
        destruct (IH h1) as [hn [E1 E2]]
    end.
    exists hn. split; [exact E1|].
    rewrite E2, !count_cons. cbn. lia.
Qed.

(** C5.  A turn whose status command returns a non-zero code and whose
    mail goes out sends exactly one mail, its subject contains the
    service name, and the loop goes on with the next turn from the
    history reached.  The history [h] is arbitrary, so earlier alerts
    suppress nothing: where every poll fails and no call raises, [n]
    turns send [n] mails and the loop is still running. *)
Theorem failed_poll_alerts_and_continues cmd agent w h rc port fuel :
  cmd <> [] -> process_reply w h cmd = inr rc -> rc <> 0%Z ->
  smtp_port_outcome w = inr port ->
  snd (send_email ("Service Failure: " ++ agent)
         ("The Jenkins agent service '" ++ agent
            ++ "' has failed or stopped unexpectedly.") w (EvRun cmd :: h))
  = Ret tt ->
  effect_reply w
    (fst (send_email ("Service Failure: " ++ agent)
            ("The Jenkins agent service '" ++ agent
               ++ "' has failed or stopped unexpectedly.") w (EvRun cmd :: h)))
    (EvSleep 20) = None ->
  monitor_cycle cmd agent w h =
  (EvSleep 20
     :: EvPrint ("Alert email sent to " ++ str_opt (getenv w "EMAIL_TO"))
     :: EvSmtp SmtpQuit
     :: EvSmtp (SmtpSendmail (getenv w "EMAIL_FROM") (getenv w "EMAIL_TO")
                  (mkMail (getenv w "EMAIL_FROM") (getenv w "EMAIL_TO")
                     ("Service Failure: " ++ agent)
                     ("The Jenkins agent service '" ++ agent
                        ++ "' has failed or stopped unexpectedly.")))
     :: EvSmtp (SmtpLogin (getenv w "SMTP_USER") (getenv w "SMTP_PASSWORD"))
     :: EvSmtp SmtpStartTls
     :: EvSmtp (SmtpConnect (getenv w "SMTP_SERVER") port)
     :: EvRun cmd :: h,
   Ret tt)
  /\ count is_sendmail (fst (monitor_cycle cmd agent w h))
     = S (count is_sendmail h)
  /\ PyStr.contains ("Service Failure: " ++ agent) agent = true
  /\ monitor_loop (S fuel) cmd agent w h
     = monitor_loop fuel cmd agent w (fst (monitor_cycle cmd agent w h))
  /\ ((forall h', exists rc', process_reply w h' cmd = inr rc' /\ rc' <> 0%Z) ->
      (forall h' ev, effect_reply w h' ev = None) ->
      forall n, exists hn,
        monitor_loop n cmd agent w h = (hn, Spin)
        /\ count is_sendmail hn = n + count is_sendmail h).
Proof.
  intros Hc Hr Hn Hp Hs Hz.
  pose proof (monitor_cycle_alert cmd agent w h rc port Hc Hr Hn Hp Hs Hz) as E.
  split; [exact E|]. rewrite E. cbn [fst].
  split; [rewrite !count_cons; reflexivity|].
  split; [apply contains_suffix|].
  split.
  - cbn [monitor_loop]. unfold bind at 1. rewrite E. reflexivity.
  - intros Hfail Hok n.
    apply (monitor_loop_realerts cmd agent w port Hc Hp Hfail Hok).
Qed.

Lemma bind_ret_eq {A B} (m : M A) (k : A -> M B) w h h' a :
  m w h = (h', Ret a) -> bind m k w h = k a w h'.
Proof. intros E. unfold bind. rewrite E. reflexivity. Qed.

Lemma bind_raise_eq {A B} (m : M A) (k : A -> M B) w h h' e :
  m w h = (h', Raise e) -> bind m k w h = (h', Raise e).
Proof. intros E. unfold bind. rewrite E. reflexivity. Qed.

Lemma bind_spin_eq {A B} (m : M A) (k : A -> M B) w h h' :
  m w h = (h', Spin) -> bind m k w h = (h', Spin).
Proof. intros E. unfold bind. rewrite E. reflexivity. Qed.

(** Evaluate the leading [bind] of the goal and of [H] on the outcome
    of its first computation. *)
Ltac bind_cases H :=
  match goal with
  | |- context [bind ?m ?k ?w ?h] =>
      let E := fresh "E" in
      destruct (m w h) as [?h [?v|?e|]] eqn:E;
      [ rewrite !(bind_ret_eq m _ w h _ _ E) in *
      | rewrite !(bind_raise_eq m _ w h _ _ E) in H; try discriminate H
      | rewrite !(bind_spin_eq m _ w h _ E) in H; try discriminate H ]
  end.

Lemma main_body_at_monitor fuel w a h :
  before_monitor w = Some (a, h) ->
  main_body fuel w [] =
  (monitor_service fuel (agent_name a) ;; print "line 283") w h.
Proof.
  unfold before_monitor.
  destruct (before_check w) as [[[a0 hd] h0]|] eqn:E; [|discriminate].
  rewrite (main_body_at_check fuel w a0 hd h0 E).
  intros H.
  bind_cases H. bind_cases H.
  destruct (install_agent_service (agent_name a0) (jenkins_url a0)
              (remote_fs a0) (username a0) (api_token a0) w h2)
    as [h3 [[]|e|]] eqn:E2; try discriminate.
  rewrite (bind_ret_eq _ _ w h2 h3 tt E2).
  injection H as -> ->. reflexivity.
Qed.

(** C4.  When a step of the SMTP session raises an exception [e] of
    class [Exception], [send_email] logs it and raises [SystemExit],
    whose exit status is 1.  When this happens in a turn of the monitor
    loop of a run, the handler of [monitor_service] does not catch it:
    [monitor_service] and the whole run end with that [SystemExit], and
    the exit status of the run is 1. *)
Theorem send_email_failure_terminates subject body w h port e h' :
  smtp_port_outcome w = inr port ->
  smtp_session (getenv w "SMTP_SERVER") port (getenv w "SMTP_USER")
    (getenv w "SMTP_PASSWORD") (getenv w "EMAIL_FROM") (getenv w "EMAIL_TO")
    (mkMail (getenv w "EMAIL_FROM") (getenv w "EMAIL_TO") subject body)
    w h = (h', Raise e) ->
  isinstance e ExceptException = true ->
  send_email subject body w h
  = (EvLogError ("Failed to send email alert: " ++ exn_str e) :: h',
     Raise (SystemExit (ExitMsg ("Error sending email: " ++ exn_str e))))
  /\ exit_status
       (Raise (SystemExit (ExitMsg ("Error sending email: " ++ exn_str e))))
     = Some 1%Z
  /\ (forall a h_start cmd k h0 rc fuel,
        before_monitor w = Some (a, h_start) ->
        cmd = service_status_cmd (platform_system w) (agent_name a) ->
        cmd <> [] ->
        monitor_loop k cmd (agent_name a) w h_start = (h0, Spin) ->
        process_reply w h0 cmd = inr rc -> rc <> 0%Z ->
        h = EvRun cmd :: h0 ->
        subject = "Service Failure: " ++ agent_name a ->
        body = "The Jenkins agent service '" ++ agent_name a
                 ++ "' has failed or stopped unexpectedly." ->
        monitor_service (k + S fuel) (agent_name a) w h_start
        = (EvLogError ("Failed to send email alert: " ++ exn_str e) :: h',
           Raise (SystemExit (ExitMsg ("Error sending email: " ++ exn_str e))))
        /\ run (k + S fuel) w
           = (EvLogError ("Failed to send email alert: " ++ exn_str e) :: h',
              Raise (SystemExit (ExitMsg ("Error sending email: " ++ exn_str e))))
        /\ exit_status (snd (run (k + S fuel) w)) = Some 1%Z).
Proof.
  intros Hp Hs He.
  assert (E1 : send_email subject body w h
               = (EvLogError ("Failed to send email alert: " ++ exn_str e) :: h',
                  Raise (SystemExit
                           (ExitMsg ("Error sending email: " ++ exn_str e))))).
  { rewrite (send_email_unfold _ _ w _ port Hp).
    unfold try_except. rewrite Hs, He. reflexivity. }
  split; [exact E1|]. split; [reflexivity|].
  intros a h_start cmd k h0 rc fuel Hm Hcmd Hc Hk Hr Hn Hh Hsubj Hbody.
  subst h subject body.
  assert (E2 : monitor_loop (k + S fuel) cmd (agent_name a) w h_start
               = (EvLogError ("Failed to send email alert: " ++ exn_str e) :: h',
                  Raise (SystemExit
                           (ExitMsg ("Error sending email: " ++ exn_str e))))).
  { rewrite (monitor_loop_resume k (S fuel) cmd (agent_name a) w h_start h0 Hk).
    cbn [monitor_loop]. unfold bind at 1.
    rewrite (monitor_cycle_on_returncode cmd (agent_name a) w h0 rc Hc Hr).
    apply Z.eqb_neq in Hn. rewrite Hn. cbn [negb].
    unfold bind at 1. rewrite E1. reflexivity. }
  assert (E3 : monitor_service (k + S fuel) (agent_name a) w h_start
               = (EvLogError ("Failed to send email alert: " ++ exn_str e) :: h',
                  Raise (SystemExit
                           (ExitMsg ("Error sending email: " ++ exn_str e))))).
  { apply monitor_service_system_exit. rewrite <- Hcmd. exact E2. }
  assert (E4 : run (k + S fuel) w
               = (EvLogError ("Failed to send email alert: " ++ exn_str e) :: h',
                  Raise (SystemExit
                           (ExitMsg ("Error sending email: " ++ exn_str e))))).
  { unfold run. apply main_system_exit.
    rewrite (main_body_at_monitor _ w a h_start Hm).
    unfold bind at 1. rewrite E3. reflexivity. }
  split; [exact E3|]. split; [exact E4|].
  rewrite E4. reflexivity.
Qed.

(** ** Computations that do not read the command line *)

Lemma argv_free_bind {A B} (m : M A) (k : A -> M B) :
  argv_free m -> (forall a, argv_free (k a)) -> argv_free (bind m k).
Proof.
  intros Hm Hk n w h. unfold bind. rewrite (Hm n w h).
  destruct (m w h) as [h' [a|e|]]; [apply Hk | reflexivity | reflexivity].
Qed.

Lemma argv_free_try_except {A} (m : M A) cls (handler : exn -> M A) :
  argv_free m -> (forall e, argv_free (handler e)) ->
  argv_free (try_except m cls handler).
Proof.
  intros Hm Hh n w h. unfold try_except. rewrite (Hm n w h).
  destruct (m w h) as [h' [a|e|]]; try reflexivity.
  destruct (isinstance e cls); [apply Hh | reflexivity].
Qed.

Lemma argv_free_raise_for_status r : argv_free (raise_for_status r).
Proof.
  unfold raise_for_status.
  destruct ((400 <=? status_code r)%Z && (status_code r <? 500)%Z);
    [intros n w h; reflexivity|].
  destruct ((500 <=? status_code r)%Z && (status_code r <? 600)%Z);
    intros n w h; reflexivity.
Qed.

Lemma argv_free_lift {A} (r : exn + A) : argv_free (lift r).
Proof. destruct r; intros n w h; reflexivity. Qed.

Ltac argv_free_step :=
  lazymatch goal with
  | |- argv_free (raise_for_status _) => apply argv_free_raise_for_status
  | |- argv_free (lift _) => apply argv_free_lift
  | |- argv_free (bind _ _) => apply argv_free_bind; [|intro]
  | |- argv_free (try_except _ _ _) => apply argv_free_try_except; [|intro]
  | |- argv_free (if ?b then _ else _) => destruct b
  | |- argv_free (match ?x with _ => _ end) => destruct x
  | |- argv_free _ => intros ? ? ?; reflexivity
  end.

Ltac argv_free_tac := cbv zeta; repeat argv_free_step.

Lemma argv_free_monitor_loop fuel cmd agent : argv_free (monitor_loop fuel cmd agent).
Proof.
  induction fuel as [|fuel IH]; cbn [monitor_loop].
  - intros n w h. reflexivity.
  - apply argv_free_bind; [|intros _; exact IH].
    unfold monitor_cycle. argv_free_tac.
Qed.

Lemma argv_free_monitor_service fuel agent : argv_free (monitor_service fuel agent).
Proof.
  unfold monitor_service.
  apply argv_free_bind; [intros n w h; reflexivity|]. intros p. cbv zeta.
  apply argv_free_try_except; [apply argv_free_monitor_loop | intro; argv_free_tac].
Qed.

Lemma argv_free_download u fs : argv_free (download_agent_jar u fs).
Proof. unfold download_agent_jar. argv_free_tac. Qed.

Lemma argv_free_install a b c d e : argv_free (install_agent_service a b c d e).
Proof.
  unfold install_agent_service.
  apply argv_free_bind; [intros n w h; reflexivity|]. intros p.
  apply argv_free_bind; [apply argv_free_download|]. intros j.
  destruct (String.eqb p "Linux"); [intros n w h; reflexivity|].
  destruct (String.eqb p "Windows"); intros n w h; reflexivity.
Qed.

Lemma argv_free_check u a hd auth : argv_free (check_agent_exists u a hd auth).
Proof. unfold check_agent_exists. argv_free_tac. Qed.

Lemma argv_free_create u a hd auth fs l : argv_free (create_agent u a hd auth fs l).
Proof. unfold create_agent. argv_free_tac. Qed.

Lemma argv_free_get_headers t : argv_free (get_headers t).
Proof.
  unfold get_headers. destruct t as [[name value]|];
    [destruct (hashable name)|]; intros n w h; reflexivity.
Qed.

Lemma argv_free_csrf u auth : argv_free (get_csrf_token u auth).
Proof. unfold get_csrf_token. argv_free_tac. Qed.

(** The value of [--executors] is never read. *)
Lemma run_with_executors n fuel w : run fuel (with_executors n w) = run fuel w.
Proof.
  unfold run, main, try_except, main_body.
  unfold bind at 1 9. unfold parse_arguments, ask_outcome.
  change (argv_outcome (with_executors n w))
    with (match argv_outcome w with
          | inl e => inl e
          | inr a =>
              @inr exn Args
                (mkArgs (jenkins_url a) (username a) (api_token a) (agent_name a)
                   (remote_fs a) (label a) n (config_file a))
          end).
  destruct (argv_outcome w) as [e|a]; [reflexivity|].
  cbn [jenkins_url username api_token agent_name remote_fs label].
  match goal with
  | |- (let (_, _) := ?m (with_executors n w) [] in _) = _ =>
      assert (F : argv_free m)
  end.
  { argv_free_tac;
      auto using argv_free_install, argv_free_monitor_service,
        argv_free_check, argv_free_create, argv_free_csrf,
        argv_free_get_headers. }
  rewrite (F n w []). reflexivity.
Qed.

(** The serialised object spells out a single executor. *)
Lemma dumps_numExecutors agent fs lbl :
  PyStr.contains (Json.dumps (create_agent_json agent fs lbl))
    (Json.quote "numExecutors" ++ ": " ++ PyStr.of_Z 1 ++ ", ") = true.
Proof.
  assert (E : exists before after,
             Json.dumps (create_agent_json agent fs lbl)
             = before ++ (Json.quote "numExecutors" ++ ": " ++ PyStr.of_Z 1 ++ ", ")
                 ++ after).
  { unfold create_agent_json. cbn [Json.dumps].
    exists ("{" ++ Json.quote "name" ++ ": " ++ Json.quote agent ++ ", "
             ++ Json.quote "nodeDescription" ++ ": "
             ++ Json.quote "Created by REST API" ++ ", ").
    eexists. rewrite !append_assoc. cbn [String.append].
    repeat f_equal. }
  destruct E as [before [after E]]. rewrite E. apply contains_append.
Qed.

(** The request made by [create_agent] carries [create_agent_data]. *)
Lemma create_agent_posts_data u agent hd auth fs lbl w h :
  In (EvHttpPost (u ++ "/computer/doCreateItem") hd
        (create_agent_data agent fs lbl) auth)
     (fst (create_agent u agent hd auth fs lbl w h)).
Proof.
  unfold create_agent, try_except, requests_post, http, raise_for_status.
  unfold bind at 1.
  destruct (http_reply w h _) as [x|r].
  - destruct (isinstance x ExceptRequestException); cbn; auto.
  - unfold bind at 1.
    destruct ((400 <=? status_code r)%Z && (status_code r <? 500)%Z);
      [cbn; auto|].
    destruct ((500 <=? status_code r)%Z && (status_code r <? 600)%Z);
      [cbn; auto|].
    destruct (status_code r =? 200)%Z; cbn; auto.
Qed.

(** C7.  The object serialised by [create_agent] has [numExecutors]
    equal to 1, the always-retained strategy and the JNLP launcher; the
    form declares a [DumbSlave]; the serialised text contains
    ["numExecutors": 1]; this form is what [create_agent] posts, once;
    and a run does not depend on the value of [--executors]. *)
Theorem create_agent_payload_single_executor agent fs lbl :
  Json.field "numExecutors" (create_agent_json agent fs lbl) = Some (JNumber 1)
  /\ Json.field "retentionStrategy" (create_agent_json agent fs lbl)
     = Some (JObject [("stapler-class",
                       JString "hudson.slaves.RetentionStrategy$Always")])
  /\ (exists settings,
        Json.field "launcher" (create_agent_json agent fs lbl)
        = Some (JObject [("stapler-class", JString "hudson.slaves.JNLPLauncher");
                         ("workDirSettings", settings)]))
  /\ create_agent_data agent fs lbl
     = [("name", agent); ("type", "hudson.slaves.DumbSlave");
        ("json", Json.dumps (create_agent_json agent fs lbl))]
  /\ PyStr.contains (Json.dumps (create_agent_json agent fs lbl))
       (Json.quote "numExecutors" ++ ": " ++ PyStr.of_Z 1 ++ ", ") = true
  /\ (forall u hd auth w h,
        In (EvHttpPost (u ++ "/computer/doCreateItem") hd
              (create_agent_data agent fs lbl) auth)
           (fst (create_agent u agent hd auth fs lbl w h))
        /\ count is_post (fst (create_agent u agent hd auth fs lbl w h))
           = S (count is_post h))
  /\ (forall n fuel w, run fuel (with_executors n w) = run fuel w).
Proof.
  split; [reflexivity|]. split; [reflexivity|].
  split; [eexists; reflexivity|]. split; [reflexivity|].
  split; [apply dumps_numExecutors|].
  split.
  - intros u hd auth w h. split.
    + apply create_agent_posts_data.
    + apply create_agent_posts_once.
  - intros n fuel w. apply run_with_executors.
Qed.

(** ** The unit file *)

Lemma service_content_lines agent u user tok jar work :
  PyStr.has_LF (exec_command agent u user tok jar work) = false ->
  parse_exec_start (service_content agent u user tok jar work)
  = Some (exec_command agent u user tok jar work).
Proof.
  intros H.
  assert (Ha : PyStr.has_LF agent = false).
  { unfold exec_command in H.
    repeat (rewrite has_LF_append in H; apply orb_false_iff in H as [? H]).
    repeat match goal with
           | H : PyStr.has_LF (_ ++ _) = false |- _ =>
               rewrite has_LF_append in H; apply orb_false_iff in H as [? ?]
           end.
    assumption. }
  unfold parse_exec_start, service_content.
  change (nl ++ "[Unit]" ++ nl ++ ?x) with ("" ++ nl ++ "[Unit]" ++ nl ++ x).
  rewrite (lines_first "") by reflexivity.
  rewrite (lines_first "[Unit]") by reflexivity.
  rewrite <- (append_assoc "Description=Jenkins Agent for " agent).
  rewrite (lines_first ("Description=Jenkins Agent for " ++ agent))
    by (rewrite has_LF_append, Ha; reflexivity).
  rewrite (lines_first "After=network.target") by reflexivity.
  change (nl ++ "[Service]" ++ ?x) with ("" ++ nl ++ "[Service]" ++ x).
  rewrite (lines_first "") by reflexivity.
  rewrite (lines_first "[Service]") by reflexivity.
  rewrite <- (append_assoc "ExecStart=").
  rewrite (lines_first ("ExecStart=" ++ _))
    by (rewrite has_LF_append, H; reflexivity).
  cbn [first_some].
  change (PyStr.strip_prefix "ExecStart=" "") with (@None string).
  change (PyStr.strip_prefix "ExecStart=" "[Unit]") with (@None string).
  change (PyStr.strip_prefix "ExecStart=" ("Description=Jenkins Agent for " ++ agent))
    with (@None string).
  change (PyStr.strip_prefix "ExecStart=" "After=network.target") with (@None string).
  change (PyStr.strip_prefix "ExecStart=" "[Service]") with (@None string).
  cbv iota. rewrite strip_prefix_append. reflexivity.
Qed.

(** ** Histories only grow *)

Lemma grows_pure {A} (m : M A) :
  (forall w h, fst (m w h) = h) -> grows m.
Proof. intros H w h e He. rewrite H. exact He. Qed.

Lemma grows_emit ev : grows (emit ev).
Proof. intros w h e He. right. exact He. Qed.

Lemma grows_effect ev : grows (effect ev).
Proof.
  intros w h e He. unfold effect.
  destruct (effect_reply w h ev); right; exact He.
Qed.

Lemma grows_subprocess_run cmd check : grows (subprocess_run cmd check).
Proof.
  intros w h e He. unfold subprocess_run. destruct cmd; [right; exact He|].
  destruct (process_reply w h (s :: cmd)) as [x|rc]; [right; exact He|].
  destruct (check && negb (rc =? 0)%Z); right; exact He.
Qed.

Lemma grows_bind {A B} (m : M A) (k : A -> M B) :
  grows m -> (forall a, grows (k a)) -> grows (bind m k).
Proof.
  intros Hm Hk w h e He. unfold bind. specialize (Hm w h e He).
  destruct (m w h) as [h' [a|x|]]; cbn [fst] in *; [|assumption|assumption].
  apply Hk. exact Hm.
Qed.

Lemma grows_try_except {A} (m : M A) cls (handler : exn -> M A) :
  grows m -> (forall x, grows (handler x)) -> grows (try_except m cls handler).
Proof.
  intros Hm Hh w h e He. unfold try_except. specialize (Hm w h e He).
  destruct (m w h) as [h' [a|x|]]; cbn [fst] in *; [assumption| |assumption].
  destruct (isinstance x cls); [apply Hh|]; assumption.
Qed.

Ltac grows_step :=
  lazymatch goal with
  | |- grows (bind _ _) => apply grows_bind; [|intro]
  | |- grows (try_except _ _ _) => apply grows_try_except; [|intro]
  | |- grows (emit _) => apply grows_emit
  | |- grows (effect _) => apply grows_effect
  | |- grows (subprocess_run _ _) => apply grows_subprocess_run
  | |- grows (ret _) => apply grows_pure; reflexivity
  | |- grows (raise _) => apply grows_pure; reflexivity
  | |- grows (if ?b then _ else _) => destruct b
  end.

Ltac grows_tac :=
  cbv beta delta [logging_info logging_error print time_sleep];
  cbv zeta;
  repeat grows_step.

(** [create_linux_service] writes the rendered text to the unit file. *)
Lemma create_linux_service_writes agent u user tok jar work w h :
  In (EvWriteFile ("/etc/systemd/system/" ++ agent ++ ".service")
        (service_content agent (normalize_url u) user tok jar work))
     (fst (create_linux_service agent u user tok jar work w h)).
Proof.
  unfold create_linux_service. cbv zeta.
  unfold bind at 1. unfold print at 1, emit. cbv beta iota.
  set (h1 := EvPrint _ :: h).
  set (ev := EvWriteFile _ _).
  unfold try_except.
  match goal with
  | |- context [bind (effect ev) ?k w h1] =>
      assert (Gk : grows (k tt)) by grows_tac;
      specialize (Gk w (ev :: h1) ev (or_introl eq_refl));
      destruct (effect_reply w h1 ev) as [y|] eqn:E;
      [ rewrite (bind_effect_raise ev k w h1 y E)
      | rewrite (bind_effect_ret ev k w h1 E);
        destruct (k tt w (ev :: h1)) as [h2 [[]|y|]] ]
  end; cbn [fst] in *; try assumption.
  - destruct (isinstance y ExceptException); left; reflexivity.
  - destruct (isinstance y ExceptException); assumption.
Qed.

(** C8, as the script has it.  When the command line embedded by
    [create_linux_service] holds no line feed, reading the [ExecStart]
    line back from the rendered unit file gives exactly that command
    line, and the rendered text is what [create_linux_service] writes to
    the unit file. *)
Theorem exec_start_round_trip agent u user tok jar work :
  PyStr.has_LF (exec_command agent (normalize_url u) user tok jar work) = false ->
  parse_exec_start (service_content agent (normalize_url u) user tok jar work)
  = Some (exec_command agent (normalize_url u) user tok jar work)
  /\ (forall w h,
        In (EvWriteFile ("/etc/systemd/system/" ++ agent ++ ".service")
              (service_content agent (normalize_url u) user tok jar work))
           (fst (create_linux_service agent u user tok jar work w h))).
Proof.
  intros H. split.
  - apply service_content_lines. exact H.
  - intros w h. apply create_linux_service_writes.
Qed.

Lemma exec_start_round_trip_witness :
  PyStr.has_LF
    (exec_command "worker-1" (normalize_url "http://ci:8080/") "admin" "s3cret"
       "/var/agent/agent.jar" "/var/agent") = false
  /\ parse_exec_start
       (service_content "worker-1" (normalize_url "http://ci:8080/") "admin"
          "s3cret" "/var/agent/agent.jar" "/var/agent")
     = Some "/usr/bin/java -jar /var/agent/agent.jar -jnlpUrl http://ci:8080/computer/worker-1/jenkins-agent.jnlp -jnlpCredentials admin:s3cret -workDir /var/agent".
Proof.
  split; [reflexivity|].
  apply (exec_start_round_trip "worker-1" "http://ci:8080/" "admin" "s3cret"
           "/var/agent/agent.jar" "/var/agent").
  reflexivity.
Defined.

(** A working directory with a line feed: the [ExecStart] line stops at
    the line feed and the command line is not recovered. *)
Lemma exec_start_round_trip_line_feed :
  parse_exec_start
    (service_content "worker-1" (normalize_url "http://ci:8080") "admin"
       "s3cret" "/var/agent/agent.jar" ("/var" ++ nl ++ "agent"))
  = Some "/usr/bin/java -jar /var/agent/agent.jar -jnlpUrl http://ci:8080/computer/worker-1/jenkins-agent.jnlp -jnlpCredentials admin:s3cret -workDir /var"
  /\ parse_exec_start
       (service_content "worker-1" (normalize_url "http://ci:8080") "admin"
          "s3cret" "/var/agent/agent.jar" ("/var" ++ nl ++ "agent"))
     <> Some (exec_command "worker-1" (normalize_url "http://ci:8080") "admin"
                "s3cret" "/var/agent/agent.jar" ("/var" ++ nl ++ "agent")).
Proof. split; [reflexivity | vm_compute; discriminate]. Qed.

(** C9.  For a URL [u] that does not end with a slash, the unit file
    rendered for [u ++ "/"] is the one rendered for [u], the whole of
    [create_linux_service] behaves the same on both, and the URL that is
    embedded is [u], which does not end with a slash. *)
Theorem trailing_slash_stripped u agent user tok jar work :
  PyStr.endswith u "/" = false ->
  service_content agent (normalize_url (u ++ "/")) user tok jar work
  = service_content agent (normalize_url u) user tok jar work
  /\ (forall w h,
        create_linux_service agent (u ++ "/") user tok jar work w h
        = create_linux_service agent u user tok jar work w h)
  /\ normalize_url (u ++ "/") = u
  /\ PyStr.endswith (normalize_url (u ++ "/")) "/" = false.
Proof.
  intros H.
  pose proof (normalize_url_append_slash u) as E1.
  pose proof (normalize_url_fixed u H) as E2.
  repeat split.
  - rewrite E1, E2. reflexivity.
  - intros w h. unfold create_linux_service. rewrite E1, E2. reflexivity.
  - exact E1.
  - rewrite E1. exact H.
Qed.

Lemma trailing_slash_stripped_witness :
  PyStr.endswith "http://ci:8080" "/" = false
  /\ service_content "worker-1" (normalize_url ("http://ci:8080" ++ "/")) "admin"
       "s3cret" "/var/agent/agent.jar" "/var/agent"
     = service_content "worker-1" (normalize_url "http://ci:8080") "admin"
         "s3cret" "/var/agent/agent.jar" "/var/agent".
Proof.
  split; [reflexivity|].
  apply (trailing_slash_stripped "http://ci:8080" "worker-1" "admin" "s3cret"
           "/var/agent/agent.jar" "/var/agent").
  reflexivity.
Defined.

Lemma send_email_failure_terminates_witness :
  smtp_port_outcome (sample_world_no_relay "Linux" 3) = inr 587%Z
  /\ isinstance (OSError "Connection refused") ExceptException = true
  /\ before_monitor (sample_world_no_relay "Linux" 3)
     = Some (sample_args, sample_start)
  /\ snd (run 1 (sample_world_no_relay "Linux" 3))
     = Raise (SystemExit (ExitMsg "Error sending email: Connection refused"))
  /\ exit_status (snd (run 1 (sample_world_no_relay "Linux" 3))) = Some 1%Z.
Proof.
  split; [reflexivity|]. split; [reflexivity|]. split; [reflexivity|].
  pose proof (send_email_failure_terminates
                ("Service Failure: " ++ "worker-1")
                ("The Jenkins agent service '" ++ "worker-1"
                   ++ "' has failed or stopped unexpectedly.")
                (sample_world_no_relay "Linux" 3)
                (EvRun ["systemctl"; "is-active"; "worker-1.service"]
                   :: sample_start)
                587%Z (OSError "Connection refused")
                (EvSmtp (SmtpConnect (Some "ops@example.org") 587)
                   :: EvRun ["systemctl"; "is-active"; "worker-1.service"]
                   :: sample_start)
                eq_refl eq_refl eq_refl) as [_ [_ R]].
  destruct (R sample_args sample_start
              ["systemctl"; "is-active"; "worker-1.service"] 0 sample_start
              3%Z 0 eq_refl eq_refl ltac:(discriminate) eq_refl eq_refl
              ltac:(discriminate) eq_refl eq_refl eq_refl) as [_ [E S]].
  split; [exact (f_equal snd E) | exact S].
Defined.

Lemma failed_poll_alerts_and_continues_witness :
  process_reply (sample_world "Linux" 404 3) []
    ["systemctl"; "is-active"; "worker-1.service"] = inr 3%Z
  /\ snd (send_email ("Service Failure: " ++ "worker-1")
            ("The Jenkins agent service '" ++ "worker-1"
               ++ "' has failed or stopped unexpectedly.")
            (sample_world "Linux" 404 3)
            [EvRun ["systemctl"; "is-active"; "worker-1.service"]]) = Ret tt
  /\ count is_sendmail
       (fst (monitor_cycle ["systemctl"; "is-active"; "worker-1.service"]
               "worker-1" (sample_world "Linux" 404 3) []))
     = S (count is_sendmail []).
Proof.
  split; [reflexivity|]. split; [reflexivity|].
  apply (failed_poll_alerts_and_continues
           ["systemctl"; "is-active"; "worker-1.service"] "worker-1"
           (sample_world "Linux" 404 3) [] 3%Z 587%Z 0);
    first [reflexivity | discriminate].
Defined.

(** ** Sample runs *)

Example run_sample_unregistered :
  count is_post (fst (run 2 (sample_world "Linux" 404 3))) = 1
  /\ count is_sendmail (fst (run 2 (sample_world "Linux" 404 3))) = 2
  /\ snd (run 2 (sample_world "Linux" 404 3)) = Spin.
Proof. repeat split; reflexivity. Qed.

Example run_sample_registered :
  count is_post (fst (run 2 (sample_world "Linux" 200 0))) = 0
  /\ count is_sendmail (fst (run 2 (sample_world "Linux" 200 0))) = 0
  /\ probe_reply (sample_world "Linux" 200 0) = Some (inr (sample_response 200)).
Proof. repeat split; reflexivity. Qed.

Example run_sample_unexpected_status :
  snd (run 2 (sample_world "Linux" 503 0))
  = Raise (SystemExit (ExitMsg "Error: Unexpected response code 503")).
Proof. reflexivity. Qed.

(** * Further properties of the script *)

(** ** Request headers *)

Lemma key_eqb_refl (k : json) : hashable k = true -> key_eqb k k = true.
Proof.
  destruct k; cbn; try discriminate; intros _;
    auto using String.eqb_refl, Z.eqb_refl.
  destruct b; reflexivity.
Qed.

Lemma dict_get_set (d : headers_t) (k v : json) :
  hashable k = true -> dict_get (dict_set d k v) k = Some v.
Proof.
  intros Hk. induction d as [|[k' v'] d IH]; cbn.
  - rewrite (key_eqb_refl k Hk). reflexivity.
  - destruct (key_eqb k' k) eqn:E; cbn; rewrite E; [reflexivity | exact IH].
Qed.

(** X1.  [get_headers] with a crumb whose field name can be a key: the
    headers map that name to the crumb, the content-type entry is kept
    in front when the name is another key, and is overwritten by the
    crumb when the name is ["Content-Type"] itself. *)
Theorem get_headers_token (name value : json) (w : World) (h : history) :
  hashable name = true ->
  exists headers,
    get_headers (Some (name, value)) w h = (h, Ret headers)
    /\ dict_get headers name = Some value
    /\ (key_eqb (JString "Content-Type") name = false ->
        headers = [(JString "Content-Type",
                    JString "application/x-www-form-urlencoded");
                   (name, value)])
    /\ (key_eqb (JString "Content-Type") name = true ->
        headers = [(JString "Content-Type", value)]).
Proof.
  intros Hk. unfold get_headers. rewrite Hk.
  eexists. split; [reflexivity|].
  split; [apply dict_get_set; exact Hk|].
  split; intros E; cbn [dict_set]; rewrite E; reflexivity.
Qed.

Lemma get_headers_token_witness :
  hashable (JString "Jenkins-Crumb") = true
  /\ exists headers,
       get_headers (Some (JString "Jenkins-Crumb", JString "abc"))
         (sample_world "Linux" 404 0) [] = ([], Ret headers)
       /\ dict_get headers (JString "Jenkins-Crumb") = Some (JString "abc").
Proof.
  split; [reflexivity|].
  destruct (get_headers_token (JString "Jenkins-Crumb") (JString "abc")
              (sample_world "Linux" 404 0) [] eq_refl) as [hd [E [G _]]].
  exists hd. split; assumption.
Defined.

(** ** The crumb request *)

Lemma raise_for_status_ok r w h :
  error_status (status_code r) = false -> raise_for_status r w h = (h, Ret tt).
Proof.
  unfold error_status, raise_for_status. intros E.
  apply orb_false_iff in E as [E1 E2]. rewrite E1, E2. reflexivity.
Qed.

Lemma raise_for_status_error r w h :
  error_status (status_code r) = true ->
  exists msg, raise_for_status r w h = (h, Raise (RequestException msg)).
Proof.
  unfold error_status, raise_for_status. intros E.
  destruct ((400 <=? status_code r)%Z && (status_code r <? 500)%Z);
    [eexists; reflexivity|].
  cbn in E. rewrite E. eexists; reflexivity.
Qed.

(** X2.  When the crumb issuer answers with a status that is no error
    and a body holding both fields, [get_csrf_token] makes that one
    request and returns the pair of the two fields. *)
Theorem get_csrf_token_success u auth w h r v field crumb :
  http_reply w h (crumb_request u auth) = inr r ->
  error_status (status_code r) = false ->
  json_body r = inr v ->
  subscript v "crumbRequestField" = inr field ->
  subscript v "crumb" = inr crumb ->
  get_csrf_token u auth w h = (crumb_request u auth :: h, Ret (field, crumb)).
Proof.
  intros Hr Hs Hj Hf Hc.
  unfold get_csrf_token, try_except, requests_get, http, crumb_request in *.
  cbv zeta. unfold bind at 1. rewrite Hr.
  unfold bind at 1. rewrite (raise_for_status_ok r w _ Hs).
  unfold bind at 1. rewrite Hj. cbn [lift ret].
  unfold bind at 1. rewrite Hf. cbn [lift ret].
  unfold bind at 1. rewrite Hc. reflexivity.
Qed.

Lemma get_csrf_token_success_witness :
  http_reply (sample_world "Linux" 404 0) []
    (crumb_request "http://ci:8080" ("admin", "s3cret"))
  = inr (sample_response 200)
  /\ get_csrf_token "http://ci:8080" ("admin", "s3cret")
       (sample_world "Linux" 404 0) []
     = ([crumb_request "http://ci:8080" ("admin", "s3cret")],
        Ret (JString "Jenkins-Crumb", JString "abc")).
Proof.
  split; [reflexivity|].
  apply (get_csrf_token_success "http://ci:8080" ("admin", "s3cret")
           (sample_world "Linux" 404 0) [] (sample_response 200)
           (JObject [("crumbRequestField", JString "Jenkins-Crumb");
                     ("crumb", JString "abc")]));
    reflexivity.
Defined.

(** X3.  When the crumb request raises a request exception, or is
    answered with a 4xx or 5xx status, [get_csrf_token] logs the error
    and raises [SystemExit]; the exit status is 1. *)
Theorem get_csrf_token_request_failure u auth w h :
  (exists m, http_reply w h (crumb_request u auth) = inl (RequestException m))
  \/ (exists r, http_reply w h (crumb_request u auth) = inr r
                /\ error_status (status_code r) = true) ->
  exists msg,
    get_csrf_token u auth w h
    = (EvLogError ("Error retrieving CSRF token: " ++ msg)
         :: crumb_request u auth :: h,
       Raise (SystemExit (ExitMsg ("Error retrieving CSRF token: " ++ msg))))
    /\ exit_status
         (Raise (SystemExit (ExitMsg ("Error retrieving CSRF token: " ++ msg))))
       = Some 1%Z.
Proof.
  intros [[m Hr]|[r [Hr Hs]]];
    unfold get_csrf_token, try_except, requests_get, http, crumb_request in *;
    cbv zeta; unfold bind at 1; rewrite Hr.
  - exists m. split; reflexivity.
  - destruct (raise_for_status_error r w
                (EvHttpGet (u ++ "/crumbIssuer/api/json") None (Some auth) :: h)
                Hs) as [msg E].
    unfold bind at 1. rewrite E. exists msg. split; reflexivity.
Qed.

Lemma get_csrf_token_request_failure_witness :
  exists msg,
    get_csrf_token "http://ci:8080" ("admin", "s3cret")
      sample_world_unreachable []
    = ([EvLogError ("Error retrieving CSRF token: " ++ msg);
        crumb_request "http://ci:8080" ("admin", "s3cret")],
       Raise (SystemExit (ExitMsg ("Error retrieving CSRF token: " ++ msg)))).
Proof.
  destruct (get_csrf_token_request_failure "http://ci:8080" ("admin", "s3cret")
              sample_world_unreachable []
              (or_introl (ex_intro _ "Connection refused" eq_refl)))
    as [msg [E _]].
  exists msg. exact E.
Defined.

(** X4.  When the body of the crumb answer lacks one of the two fields,
    the [KeyError] is not a request exception: it leaves
    [get_csrf_token] as it is, nothing is logged and no [SystemExit] is
    raised. *)
Theorem get_csrf_token_missing_key u auth w h r fields :
  http_reply w h (crumb_request u auth) = inr r ->
  error_status (status_code r) = false ->
  json_body r = inr (JObject fields) ->
  Json.assoc "crumbRequestField" fields = None
  \/ Json.assoc "crumb" fields = None ->
  exists key,
    get_csrf_token u auth w h
    = (crumb_request u auth :: h, Raise (OtherException "KeyError" key)).
Proof.
  intros Hr Hs Hj Hk.
  unfold get_csrf_token, try_except, requests_get, http, crumb_request in *.
  cbv zeta. unfold bind at 1. rewrite Hr.
  unfold bind at 1. rewrite (raise_for_status_ok r w _ Hs).
  unfold bind at 1. rewrite Hj. cbn [lift ret].
  unfold bind at 1. unfold subscript at 1.
  destruct (Json.assoc "crumbRequestField" fields) as [f|] eqn:Ef.
  - destruct Hk as [Hk|Hk]; [discriminate|].
    cbn [lift ret]. unfold bind at 1. unfold subscript. rewrite Hk.
    eexists. reflexivity.
  - eexists. reflexivity.
Qed.

Lemma get_csrf_token_missing_key_witness :
  exists key,
    get_csrf_token "http://ci:8080" ("admin", "s3cret")
      (mkWorld (inr sample_args) "Linux" (fun _ => None) (inr 587%Z)
         posixpath_join (fun _ _ => false)
         (fun _ _ => inr (mkResponse 200 "OK" "http://ci:8080/" "" ""
                            (inr (JObject [("crumb", JString "abc")]))))
         (fun _ _ => None) (fun _ _ => inr 0%Z)) []
    = ([crumb_request "http://ci:8080" ("admin", "s3cret")],
       Raise (OtherException "KeyError" key)).
Proof.
  apply (get_csrf_token_missing_key "http://ci:8080" ("admin", "s3cret") _ []
           (mkResponse 200 "OK" "http://ci:8080/" "" ""
              (inr (JObject [("crumb", JString "abc")])))
           [("crumb", JString "abc")]);
    first [reflexivity | left; reflexivity].
Defined.

(** ** The existence check and the creation request *)

(** X5.  When the status probe raises a request exception,
    [check_agent_exists] logs it and raises [SystemExit]. *)
Theorem check_agent_exists_request_failure u n hd a w h m :
  http_reply w h (EvHttpGet (u ++ "/computer/" ++ n ++ "/api/json")
                    (Some hd) (Some a)) = inl (RequestException m) ->
  check_agent_exists u n hd a w h
  = (EvLogError ("Error checking if agent exists: " ++ m)
       :: EvHttpGet (u ++ "/computer/" ++ n ++ "/api/json") (Some hd) (Some a)
       :: h,
     Raise (SystemExit (ExitMsg ("Error checking if agent exists: " ++ m)))).
Proof.
  intros Hr. unfold check_agent_exists, try_except, requests_get, http.
  unfold bind at 1. rewrite Hr. reflexivity.
Qed.

Lemma check_agent_exists_request_failure_witness :
  check_agent_exists "http://ci:8080" "worker-1" [] ("admin", "s3cret")
    sample_world_unreachable []
  = ([EvLogError "Error checking if agent exists: Connection refused";
      EvHttpGet "http://ci:8080/computer/worker-1/api/json" (Some [])
        (Some ("admin", "s3cret"))],
     Raise (SystemExit
              (ExitMsg "Error checking if agent exists: Connection refused"))).
Proof.
  apply (check_agent_exists_request_failure "http://ci:8080" "worker-1" []
           ("admin", "s3cret") _ [] "Connection refused").
  reflexivity.
Defined.

(** X6.  [create_agent] returns exactly when the creation request is
    answered with status 200; any other status, 201 or 204 included,
    ends in [SystemExit]. *)
Theorem create_agent_succeeds_iff_200 u n hd a fs lbl w h r :
  http_reply w h (EvHttpPost (u ++ "/computer/doCreateItem") hd
                    (create_agent_data n fs lbl) a) = inr r ->
  (snd (create_agent u n hd a fs lbl w h) = Ret tt <-> status_code r = 200%Z)
  /\ (status_code r <> 200%Z ->
      exists msg,
        snd (create_agent u n hd a fs lbl w h)
        = Raise (SystemExit (ExitMsg msg))).
Proof.
  intros Hr.
  assert (Hp : requests_post (u ++ "/computer/doCreateItem") hd
                 (create_agent_data n fs lbl) a w h
               = (EvHttpPost (u ++ "/computer/doCreateItem") hd
                    (create_agent_data n fs lbl) a :: h, Ret r))
    by (unfold requests_post, http; rewrite Hr; reflexivity).
  unfold create_agent, try_except. cbv zeta.
  rewrite !(bind_ret_eq _ _ w h _ r Hp).
  destruct (error_status (status_code r)) eqn:Es.
  - destruct (raise_for_status_error r w
                (EvHttpPost (u ++ "/computer/doCreateItem") hd
                   (create_agent_data n fs lbl) a :: h) Es) as [msg E].
    rewrite !(bind_raise_eq _ _ w _ _ _ E). cbn.
    assert (Hn : status_code r <> 200%Z).
    { intros E2. rewrite E2 in Es. discriminate. }
    split; [split; [discriminate | contradiction]|].
    intros _. eexists; reflexivity.
  - rewrite !(bind_ret_eq _ _ w _ _ tt (raise_for_status_ok r w _ Es)).
    destruct (Z.eqb_spec (status_code r) 200) as [E2|E2]; cbn.
    + split; [split; trivial | contradiction].
    + split; [split; [discriminate | contradiction]|].
      intros _. eexists; reflexivity.
Qed.

Lemma create_agent_succeeds_iff_200_witness :
  http_reply (sample_world "Linux" 404 0) []
    (EvHttpPost ("http://ci:8080" ++ "/computer/doCreateItem") []
       (create_agent_data "worker-1" "/var/agent" "") ("admin", "s3cret"))
  = inr (sample_response 200)
  /\ (snd (create_agent "http://ci:8080" "worker-1" [] ("admin", "s3cret")
             "/var/agent" "" (sample_world "Linux" 404 0) []) = Ret tt
      <-> status_code (sample_response 200) = 200%Z).
Proof.
  split; [reflexivity|].
  apply (create_agent_succeeds_iff_200 "http://ci:8080" "worker-1" []
           ("admin", "s3cret") "/var/agent" "" (sample_world "Linux" 404 0) []
           (sample_response 200)).
  reflexivity.
Defined.

(** ** Fail-fast registration *)

Lemma bind_assoc {A B C} (m : M A) (k : A -> M B) (k' : B -> M C) w h :
  bind (bind m k) k' w h = bind m (fun a => bind (k a) k') w h.
Proof. unfold bind. destruct (m w h) as [h' [a|e|]]; reflexivity. Qed.

(** Split the goal on the outcome of the first computation of a [bind]
    that heads both sides. *)
Ltac bind_both :=
  rewrite ?bind_assoc;
  match goal with
  | |- bind ?m ?k ?w ?h = bind ?m ?k' ?w ?h =>
      let E := fresh "E" in
      destruct (m w h) as [?h [?v|?e|]] eqn:E;
      [ rewrite (bind_ret_eq m k w h _ _ E), (bind_ret_eq m k' w h _ _ E)
      | rewrite (bind_raise_eq m k w h _ _ E), (bind_raise_eq m k' w h _ _ E);
        reflexivity
      | rewrite (bind_spin_eq m k w h _ E), (bind_spin_eq m k' w h _ E);
        reflexivity ]
  end.

Lemma main_body_registration fuel w h :
  main_body fuel w h =
  (args <- registration ;;
   install_agent_service (agent_name args) (jenkins_url args) (remote_fs args)
     (username args) (api_token args) ;;
   monitor_service fuel (agent_name args) ;;
   print "line 283") w h.
Proof.
  unfold main_body, registration. cbv zeta.
  do 5 bind_both. reflexivity.
Qed.





(** ** The end of [main] *)

Lemma never_returns_monitor_loop fuel cmd agent :
  never_returns (monitor_loop fuel cmd agent).
Proof.
  induction fuel as [|fuel IH]; intros w h a; [discriminate|].
  cbn [monitor_loop]. unfold bind.
  destruct (monitor_cycle cmd agent w h) as [h1 [[]|e|]];
    [apply IH | discriminate | discriminate].
Qed.

Lemma never_returns_monitor_service fuel agent :
  never_returns (monitor_service fuel agent).
Proof.
  intros w h a. unfold monitor_service, platform_system_, ask.
  unfold bind at 1. cbv zeta. unfold try_except.
  pose proof (never_returns_monitor_loop fuel
                (service_status_cmd (platform_system w) agent) agent w h) as N.
  destruct (monitor_loop fuel _ agent w h) as [h1 [v|e|]]; cbn [snd] in *.
  - exfalso. exact (N v eq_refl).
  - destruct (isinstance e ExceptException); discriminate.
  - discriminate.
Qed.

Lemma quiet_bind_never (P : event -> bool) {A B} (m : M A) (k : A -> M B) :
  quiet P m -> never_returns m -> quiet P (bind m k).
Proof.
  intros Q N w h. unfold bind. specialize (Q w h). specialize (N w h).
  destruct (m w h) as [h1 [a|e|]]; cbn [fst snd] in *; try exact Q.
  exfalso. exact (N a eq_refl).
Qed.

Lemma quiet_283_send_email s b : quiet is_line_283 (send_email s b).
Proof. unfold send_email. quiet_tac. Qed.

Lemma quiet_283_monitor_service fuel agent :
  quiet is_line_283 (monitor_service fuel agent).
Proof.
  unfold monitor_service. quiet_tac.
  induction fuel as [|fuel IH]; cbn [monitor_loop]; [apply quiet_spin|].
  apply quiet_bind; [|intros _; exact IH].
  unfold monitor_cycle. quiet_tac. apply quiet_283_send_email.
Qed.

Lemma quiet_283_install a b c d e :
  quiet is_line_283 (install_agent_service a b c d e).
Proof.
  unfold install_agent_service, download_agent_jar, create_linux_service,
    create_windows_service, exec_command.
  quiet_tac.
Qed.

Lemma quiet_283_registration : quiet is_line_283 registration.
Proof.
  unfold registration, get_csrf_token, get_headers, check_agent_exists,
    create_agent.
  quiet_tac.
Qed.

(** X8.  [main] never returns and its last statement is never reached:
    no run returns a value and no run prints ["line 283"]. *)
Theorem main_never_returns (fuel : nat) (w : World) :
  (forall a, snd (run fuel w) <> Ret a)
  /\ count is_line_283 (fst (run fuel w)) = 0.
Proof.
  assert (N : forall h a, snd (main_body fuel w h) <> Ret a).
  { intros h a. rewrite main_body_registration. unfold bind at 1.
    destruct (registration w h) as [h0 [args|e|]]; try discriminate.
    unfold bind at 1.
    destruct (install_agent_service _ _ _ _ _ w h0) as [h1 [[]|e|]];
      try discriminate.
    unfold bind.
    pose proof (never_returns_monitor_service fuel (agent_name args) w h1) as M.
    destruct (monitor_service fuel (agent_name args) w h1) as [h2 [v|e|]];
      cbn [snd] in *; try discriminate.
    exfalso. exact (M v eq_refl). }
  assert (Q : count is_line_283 (fst (main_body fuel w [])) = 0).
  { rewrite main_body_registration.
    assert (Qm : quiet is_line_283
                   (args <- registration ;;
                    install_agent_service (agent_name args) (jenkins_url args)
                      (remote_fs args) (username args) (api_token args) ;;
                    monitor_service fuel (agent_name args) ;;
                    print "line 283")).
    { apply quiet_bind; [apply quiet_283_registration|]. intros args.
      apply quiet_bind; [apply quiet_283_install|]. intros _.
      apply quiet_bind_never;
        [apply quiet_283_monitor_service | apply never_returns_monitor_service]. }
    exact (Qm w []). }
  unfold run, main, try_except. specialize (N []).
  destruct (main_body fuel w []) as [h0 [v|e|]]; cbn [fst snd] in *.
  - exfalso. exact (N v eq_refl).
  - destruct (isinstance e ExceptKeyboardInterrupt); cbn [fst snd].
    + cbn. rewrite count_cons. cbn.
      split; [intros a H; discriminate H | exact Q].
    + split; [intros a H; discriminate H | exact Q].
  - split; [intros a H; discriminate H | exact Q].
Qed.

(** ** Faults of the monitor *)

(** What [monitor_service] makes of an exception raised in a turn of
    its loop. *)
Lemma monitor_service_turn_raises k fuel agent w h_start h0 h1 e :
  monitor_loop k (service_status_cmd (platform_system w) agent) agent w h_start
  = (h0, Spin) ->
  monitor_cycle (service_status_cmd (platform_system w) agent) agent w h0
  = (h1, Raise e) ->
  monitor_service (k + S fuel) agent w h_start =
  if isinstance e ExceptException then
    (EvLogError ("Failed to monitor the service: " ++ exn_str e) :: h1,
     Raise (SystemExit (ExitMsg ("Error monitoring service: " ++ exn_str e))))
  else (h1, Raise e).
Proof.
  intros Hk Hc.
  unfold monitor_service, platform_system_, ask. unfold bind at 1. cbv zeta.
  unfold try_except.
  rewrite (monitor_loop_resume k (S fuel) _ agent w h_start h0 Hk).
  cbn [monitor_loop]. rewrite (bind_raise_eq _ _ w h0 h1 e Hc).
  destruct (isinstance e ExceptException); reflexivity.
Qed.

(** X9.  A keyboard interrupt raised in a turn of the monitor loop is
    not an [Exception]: [monitor_service] lets it through, [main] logs
    "Script interrupted by user." and leaves with status 1. *)
Theorem keyboard_interrupt_in_monitor w a h_start k h0 h1 fuel :
  before_monitor w = Some (a, h_start) ->
  monitor_loop k (service_status_cmd (platform_system w) (agent_name a))
    (agent_name a) w h_start = (h0, Spin) ->
  monitor_cycle (service_status_cmd (platform_system w) (agent_name a))
    (agent_name a) w h0 = (h1, Raise KeyboardInterrupt) ->
  monitor_service (k + S fuel) (agent_name a) w h_start
  = (h1, Raise KeyboardInterrupt)
  /\ run (k + S fuel) w
     = (EvLogError "Script interrupted by user." :: h1,
        Raise (SystemExit (ExitCode 1)))
  /\ exit_status (snd (run (k + S fuel) w)) = Some 1%Z.
Proof.
  intros Hm Hk Hc.
  pose proof (monitor_service_turn_raises k fuel (agent_name a) w h_start h0 h1
                KeyboardInterrupt Hk Hc) as E.
  cbn [isinstance] in E.
  assert (R : run (k + S fuel) w
              = (EvLogError "Script interrupted by user." :: h1,
                 Raise (SystemExit (ExitCode 1)))).
  { unfold run, main, try_except.
    rewrite (main_body_at_monitor _ w a h_start Hm).
    rewrite (bind_raise_eq _ _ w h_start h1 KeyboardInterrupt E).
    reflexivity. }
  split; [exact E|]. split; [exact R|]. rewrite R. reflexivity.
Qed.

Lemma keyboard_interrupt_in_monitor_witness :
  before_monitor (sample_host (inr 587%Z) interrupted_sleep (inr 0%Z))
  = Some (sample_args, sample_start)
  /\ snd (run 1 (sample_host (inr 587%Z) interrupted_sleep (inr 0%Z)))
     = Raise (SystemExit (ExitCode 1))
  /\ exit_status (snd (run 1 (sample_host (inr 587%Z) interrupted_sleep (inr 0%Z)))) = Some 1%Z.
Proof.
  split; [reflexivity|].
  destruct (keyboard_interrupt_in_monitor (sample_host (inr 587%Z) interrupted_sleep (inr 0%Z))
              sample_args sample_start 0 sample_start
              (EvSleep 20
                 :: EvPrint "The Jenkins agent service 'worker-1' is running normally."
                 :: EvLogInfo "The Jenkins agent service 'worker-1' is running normally."
                 :: EvRun ["systemctl"; "is-active"; "worker-1.service"]
                 :: sample_start) 0 eq_refl eq_refl eq_refl) as [_ [R S]].
  split; [exact (f_equal snd R) | exact S].
Defined.

(** X10.  When the status command cannot be started (the call raises
    an [Exception]), [monitor_service] logs the failure and raises
    [SystemExit]; no mail is attempted. *)
Theorem status_command_cannot_start w agent h_start k h0 e fuel :
  service_status_cmd (platform_system w) agent <> [] ->
  monitor_loop k (service_status_cmd (platform_system w) agent) agent w h_start
  = (h0, Spin) ->
  process_reply w h0 (service_status_cmd (platform_system w) agent) = inl e ->
  isinstance e ExceptException = true ->
  monitor_service (k + S fuel) agent w h_start
  = (EvLogError ("Failed to monitor the service: " ++ exn_str e)
       :: EvRun (service_status_cmd (platform_system w) agent) :: h0,
     Raise (SystemExit (ExitMsg ("Error monitoring service: " ++ exn_str e))))
  /\ count is_smtp (fst (monitor_service (k + S fuel) agent w h_start))
     = count is_smtp h0.
Proof.
  intros Hc Hk Hr He.
  assert (C : monitor_cycle (service_status_cmd (platform_system w) agent)
                agent w h0
              = (EvRun (service_status_cmd (platform_system w) agent) :: h0,
                 Raise e)).
  { unfold monitor_cycle. apply bind_raise_eq. unfold subprocess_run.
    destruct (service_status_cmd (platform_system w) agent) as [|c cmd];
      [contradiction|].
    rewrite Hr. reflexivity. }
  rewrite (monitor_service_turn_raises k fuel agent w h_start h0 _ e Hk C), He.
  split; [reflexivity|]. cbn [fst]. rewrite !count_cons. reflexivity.
Qed.

(** X11.  The SMTP port is read before the guarded session: when
    reading it raises, [send_email] raises that exception with no SMTP
    step and no log line, and in a failing turn of the monitor it is
    reported as a failure to monitor the service. *)
Theorem send_email_port_unreadable subject body w h e :
  smtp_port_outcome w = inl e ->
  send_email subject body w h = (h, Raise e)
  /\ (isinstance e ExceptException = true ->
      forall agent h_start k h0 rc fuel,
        service_status_cmd (platform_system w) agent <> [] ->
        monitor_loop k (service_status_cmd (platform_system w) agent) agent w
          h_start = (h0, Spin) ->
        process_reply w h0 (service_status_cmd (platform_system w) agent)
        = inr rc ->
        rc <> 0%Z ->
        monitor_service (k + S fuel) agent w h_start
        = (EvLogError ("Failed to monitor the service: " ++ exn_str e)
             :: EvRun (service_status_cmd (platform_system w) agent) :: h0,
           Raise (SystemExit
                    (ExitMsg ("Error monitoring service: " ++ exn_str e))))).
Proof.
  intros Hp.
  assert (S : forall s b h', send_email s b w h' = (h', Raise e)).
  { intros s b h'. unfold send_email, os_getenv, ask, ask_outcome.
    unfold bind at 1. unfold bind at 1. unfold bind at 1. unfold bind at 1.
    rewrite Hp. reflexivity. }
  split; [apply S|].
  intros He agent h_start k h0 rc fuel Hc Hk Hr Hn.
  assert (C : monitor_cycle (service_status_cmd (platform_system w) agent)
                agent w h0
              = (EvRun (service_status_cmd (platform_system w) agent) :: h0,
                 Raise e)).
  { rewrite (monitor_cycle_on_returncode _ agent w h0 rc Hc Hr).
    apply Z.eqb_neq in Hn. rewrite Hn. cbn [negb].
    apply bind_raise_eq. apply S. }
  rewrite (monitor_service_turn_raises k fuel agent w h_start h0 _ e Hk C), He.
  reflexivity.
Qed.

Lemma status_command_cannot_start_witness :
  process_reply
    (sample_host (inr 587%Z) (fun _ => None) (inl (OSError "No such file")))
    [] (service_status_cmd "Linux" "worker-1") = inl (OSError "No such file")
  /\ monitor_service 1 "worker-1"
       (sample_host (inr 587%Z) (fun _ => None) (inl (OSError "No such file")))
       []
     = ([EvLogError "Failed to monitor the service: No such file";
         EvRun ["systemctl"; "is-active"; "worker-1.service"]],
        Raise (SystemExit (ExitMsg "Error monitoring service: No such file"))).
Proof.
  split; [reflexivity|].
  apply (status_command_cannot_start
           (sample_host (inr 587%Z) (fun _ => None) (inl (OSError "No such file")))
           "worker-1" [] 0 [] (OSError "No such file") 0);
    first [reflexivity | discriminate].
Defined.

Lemma send_email_port_unreadable_witness :
  smtp_port_outcome
    (sample_host (inl (OtherException "TypeError" "int() argument"))
       (fun _ => None) (inr 3%Z))
  = inl (OtherException "TypeError" "int() argument")
  /\ send_email "s" "b"
       (sample_host (inl (OtherException "TypeError" "int() argument"))
          (fun _ => None) (inr 3%Z)) []
     = ([], Raise (OtherException "TypeError" "int() argument")).
Proof.
  split; [reflexivity|].
  apply (send_email_port_unreadable "s" "b"
           (sample_host (inl (OtherException "TypeError" "int() argument"))
              (fun _ => None) (inr 3%Z)) []
           (OtherException "TypeError" "int() argument")).
  reflexivity.
Defined.

Lemma send_email_ok subject body w h port :
  smtp_port_outcome w = inr port ->
  (forall h' ev, effect_reply w h' ev = None) ->
  snd (send_email subject body w h) = Ret tt.
Proof.
  intros Hp Hok. rewrite (send_email_unfold _ _ w _ port Hp).
  unfold try_except, smtp_session.
  do 5 (rewrite bind_effect_ret by apply Hok). reflexivity.
Qed.

(** X12.  On a host where no call raises, [n] turns of the loop poll
    [n] times and sleep [n] times, and each turn either sends one mail
    or logs one informational line. *)
Theorem monitor_loop_accounting cmd agent w port :
  cmd <> [] -> smtp_port_outcome w = inr port ->
  (forall h, exists rc, process_reply w h cmd = inr rc) ->
  (forall h ev, effect_reply w h ev = None) ->
  forall n h, exists hn,
    monitor_loop n cmd agent w h = (hn, Spin)
    /\ count is_run hn = n + count is_run h
    /\ count is_sleep hn = n + count is_sleep h
    /\ count is_sendmail hn + count is_log_info hn
       = n + (count is_sendmail h + count is_log_info h).
Proof.
  intros Hc Hp Hrun Hok n. induction n as [|n IH]; intros h.
  - exists h. repeat split; reflexivity.
  - destruct (Hrun h) as [rc Hr].
    assert (C : exists h1,
               monitor_cycle cmd agent w h = (h1, Ret tt)
               /\ count is_run h1 = S (count is_run h)
               /\ count is_sleep h1 = S (count is_sleep h)
               /\ count is_sendmail h1 + count is_log_info h1
                  = S (count is_sendmail h + count is_log_info h)).
    { destruct (Z.eq_dec rc 0) as [E|E].
      - subst rc.
        rewrite (monitor_cycle_on_returncode cmd agent w h 0%Z Hc Hr).
        cbn [Z.eqb negb].
        eexists. split.
        + unfold bind, logging_info, print, emit, time_sleep, effect.
          rewrite Hok. reflexivity.
        + rewrite !count_cons. cbn. repeat split; lia.
      - pose proof (monitor_cycle_alert cmd agent w h rc port Hc Hr E Hp
                      (send_email_ok _ _ w _ port Hp Hok) (Hok _ _)) as A.
        eexists. split; [exact A|].
        rewrite !count_cons. cbn. repeat split; lia. }
    destruct C as [h1 [C [R [S T]]]].
    destruct (IH h1) as [hn [L [R' [S' T']]]].
    exists hn. cbn [monitor_loop].
    rewrite (bind_ret_eq _ _ w h h1 tt C).
    split; [exact L|]. repeat split; lia.
Qed.

Lemma monitor_loop_accounting_witness :
  ["systemctl"; "is-active"; "worker-1.service"] <> []
  /\ smtp_port_outcome (sample_world "Linux" 404 3) = inr 587%Z
  /\ exists hn,
       monitor_loop 2 ["systemctl"; "is-active"; "worker-1.service"] "worker-1"
         (sample_world "Linux" 404 3) [] = (hn, Spin)
       /\ count is_run hn = 2 + count is_run [].
Proof.
  split; [discriminate|]. split; [reflexivity|].
  destruct (monitor_loop_accounting
              ["systemctl"; "is-active"; "worker-1.service"] "worker-1"
              (sample_world "Linux" 404 3) 587%Z
              ltac:(discriminate) eq_refl
              (fun h => ex_intro _ 3%Z eq_refl)
              (fun h ev => eq_refl) 2 []) as [hn [L [R _]]].
  exists hn. split; assumption.
Defined.

(** ** Fetching the agent *)

(** After the directory step, [download_agent_jar] is its guarded
    request. *)
Lemma download_agent_jar_from_dir u fs w h :
  dir_available w h fs ->
  download_agent_jar u fs w h =
  try_except
    (response <- requests_get (u ++ "/jnlpJars/agent.jar") None None ;;
     raise_for_status response ;;
     effect (EvWriteFile (os_path_join w fs "agent.jar") (content response)) ;;
     print ("Downloaded agent.jar to " ++ os_path_join w fs "agent.jar") ;;
     ret (os_path_join w fs "agent.jar"))
    ExceptRequestException
    (fun e =>
       logging_error ("Error downloading agent.jar: " ++ exn_str e) ;;
       raise (SystemExit (ExitMsg ("Error downloading agent.jar: " ++ exn_str e))))
    w (dir_ready w h fs).
Proof.
  intros Hd. unfold download_agent_jar, dir_ready. cbv zeta.
  rewrite (bind_ret_eq _ _ w h h (os_path_join w fs "agent.jar") eq_refl).
  rewrite (bind_ret_eq _ _ w h h (os_path_exists w h fs) eq_refl).
  unfold dir_available in Hd.
  destruct (os_path_exists w h fs); cbn [negb].
  - exact (bind_ret_eq (ret tt) _ w h h tt eq_refl).
  - specialize (Hd eq_refl).
    refine (bind_ret_eq _ _ w h _ tt _). unfold try_except.
    rewrite (bind_effect_ret _ _ w h Hd). reflexivity.
Qed.

(** X13.  When the working directory is missing and cannot be created,
    [download_agent_jar] logs the error and raises [SystemExit] without
    making any request. *)
Theorem download_directory_failure u fs w h e :
  os_path_exists w h fs = false ->
  effect_reply w h (EvMakedirs fs) = Some e ->
  isinstance e ExceptOSError = true ->
  download_agent_jar u fs w h
  = (EvLogError ("Error creating directory " ++ fs ++ ": " ++ exn_str e)
       :: EvMakedirs fs :: h,
     Raise (SystemExit
              (ExitMsg ("Error creating directory " ++ fs ++ ": " ++ exn_str e)))).
Proof.
  intros Hx Hm He. unfold download_agent_jar. cbv zeta.
  rewrite (bind_ret_eq _ _ w h h (os_path_join w fs "agent.jar") eq_refl).
  rewrite (bind_ret_eq _ _ w h h (os_path_exists w h fs) eq_refl).
  rewrite Hx. cbn [negb].
  apply bind_raise_eq. unfold try_except.
  rewrite (bind_effect_raise _ _ w h e Hm), He. reflexivity.
Qed.

Lemma download_directory_failure_witness :
  download_agent_jar "http://ci:8080" "/var/agent"
    (sample_host (inr 587%Z) read_only_parent (inr 0%Z)) []
  = ([EvLogError "Error creating directory /var/agent: Permission denied";
      EvMakedirs "/var/agent"],
     Raise (SystemExit
              (ExitMsg "Error creating directory /var/agent: Permission denied"))).
Proof.
  apply (download_directory_failure "http://ci:8080" "/var/agent"
           (sample_host (inr 587%Z) read_only_parent (inr 0%Z)) []
           (OSError "Permission denied")); reflexivity.
Defined.

(** X14.  When the download request raises a request exception or is
    answered with a 4xx or 5xx status, [download_agent_jar] logs the
    error and raises [SystemExit]; no file is written. *)
Theorem download_request_failure u fs w h :
  dir_available w h fs ->
  (exists m, http_reply w (dir_ready w h fs) (jar_request u)
             = inl (RequestException m))
  \/ (exists r, http_reply w (dir_ready w h fs) (jar_request u) = inr r
                /\ error_status (status_code r) = true) ->
  exists msg,
    download_agent_jar u fs w h
    = (EvLogError ("Error downloading agent.jar: " ++ msg)
         :: jar_request u :: dir_ready w h fs,
       Raise (SystemExit (ExitMsg ("Error downloading agent.jar: " ++ msg)))).
Proof.
  intros Hd Hr. rewrite (download_agent_jar_from_dir u fs w h Hd).
  unfold try_except, requests_get, http, jar_request in *.
  destruct Hr as [[m Hr]|[r [Hr Hs]]]; unfold bind at 1; rewrite Hr.
  - exists m. reflexivity.
  - destruct (raise_for_status_error r w
                (EvHttpGet (u ++ "/jnlpJars/agent.jar") None None
                   :: dir_ready w h fs) Hs) as [msg E].
    rewrite (bind_raise_eq _ _ w _ _ _ E). exists msg. reflexivity.
Qed.

(** X15.  When the request succeeds and the file can be written,
    [download_agent_jar] writes the body of the answer to
    [os.path.join(remote_fs, "agent.jar")] and returns that path; the
    directory is created only when it is missing. *)
Theorem download_success u fs w h r :
  dir_available w h fs ->
  http_reply w (dir_ready w h fs) (jar_request u) = inr r ->
  error_status (status_code r) = false ->
  effect_reply w (jar_request u :: dir_ready w h fs)
    (EvWriteFile (os_path_join w fs "agent.jar") (content r)) = None ->
  download_agent_jar u fs w h
  = (EvPrint ("Downloaded agent.jar to " ++ os_path_join w fs "agent.jar")
       :: EvWriteFile (os_path_join w fs "agent.jar") (content r)
       :: jar_request u :: dir_ready w h fs,
     Ret (os_path_join w fs "agent.jar")).
Proof.
  intros Hd Hr Hs Hw. rewrite (download_agent_jar_from_dir u fs w h Hd).
  unfold try_except, requests_get, http, jar_request in *.
  unfold bind at 1. rewrite Hr.
  rewrite (bind_ret_eq _ _ w _ _ tt (raise_for_status_ok r w _ Hs)).
  rewrite (bind_effect_ret _ _ w _ Hw). reflexivity.
Qed.

(** X16.  An exception raised while writing the jar that is no request
    exception is not handled by [download_agent_jar]: it leaves the
    function unlogged, not as [SystemExit]. *)
Theorem download_write_failure u fs w h r e :
  dir_available w h fs ->
  http_reply w (dir_ready w h fs) (jar_request u) = inr r ->
  error_status (status_code r) = false ->
  effect_reply w (jar_request u :: dir_ready w h fs)
    (EvWriteFile (os_path_join w fs "agent.jar") (content r)) = Some e ->
  isinstance e ExceptRequestException = false ->
  download_agent_jar u fs w h
  = (EvWriteFile (os_path_join w fs "agent.jar") (content r)
       :: jar_request u :: dir_ready w h fs,
     Raise e).
Proof.
  intros Hd Hr Hs Hw He. rewrite (download_agent_jar_from_dir u fs w h Hd).
  unfold try_except, requests_get, http, jar_request in *.
  unfold bind at 1. rewrite Hr.
  rewrite (bind_ret_eq _ _ w _ _ tt (raise_for_status_ok r w _ Hs)).
  rewrite (bind_effect_raise _ _ w _ e Hw), He. reflexivity.
Qed.

Lemma download_request_failure_witness :
  exists msg,
    download_agent_jar "http://ci:8080" "/var/agent"
      sample_world_unreachable []
    = ([EvLogError ("Error downloading agent.jar: " ++ msg);
        jar_request "http://ci:8080"],
       Raise (SystemExit (ExitMsg ("Error downloading agent.jar: " ++ msg)))).
Proof.
  apply (download_request_failure "http://ci:8080" "/var/agent"
           sample_world_unreachable []).
  - intros H. discriminate H.
  - left. exists "Connection refused". reflexivity.
Defined.

Lemma download_success_witness :
  dir_available (sample_world "Linux" 404 0) [] "/var/agent"
  /\ download_agent_jar "http://ci:8080" "/var/agent"
       (sample_world "Linux" 404 0) []
     = ([EvPrint "Downloaded agent.jar to /var/agent/agent.jar";
         EvWriteFile "/var/agent/agent.jar" "JAR";
         jar_request "http://ci:8080";
         EvPrint "Directory /var/agent created.";
         EvMakedirs "/var/agent"],
        Ret "/var/agent/agent.jar").
Proof.
  assert (D : dir_available (sample_world "Linux" 404 0) [] "/var/agent")
    by (intros _; reflexivity).
  split; [exact D|].
  apply (download_success "http://ci:8080" "/var/agent"
           (sample_world "Linux" 404 0) [] (sample_response 200) D);
    reflexivity.
Defined.

Lemma download_write_failure_witness :
  dir_available (sample_host (inr 587%Z) read_only_files (inr 0%Z)) []
    "/var/agent"
  /\ download_agent_jar "http://ci:8080" "/var/agent"
       (sample_host (inr 587%Z) read_only_files (inr 0%Z)) []
     = ([EvWriteFile "/var/agent/agent.jar" "JAR";
         jar_request "http://ci:8080";
         EvPrint "Directory /var/agent created.";
         EvMakedirs "/var/agent"],
        Raise (OSError "Permission denied")).
Proof.
  assert (D : dir_available (sample_host (inr 587%Z) read_only_files (inr 0%Z))
                [] "/var/agent")
    by (intros _; reflexivity).
  split; [exact D|].
  apply (download_write_failure "http://ci:8080" "/var/agent"
           (sample_host (inr 587%Z) read_only_files (inr 0%Z)) []
           (sample_response 200) (OSError "Permission denied") D);
    reflexivity.
Defined.

(** ** Installing the service *)

(** X17.  When the unit file can be written and the three [systemctl]
    commands end with 0, [create_linux_service] prints the command line,
    writes the unit file, reloads, enables and starts the unit, in this
    order, and returns. *)
Theorem create_linux_service_success agent u user tok jar work w h :
  let cmd_line := exec_command agent (normalize_url u) user tok jar work in
  let unit_file := "/etc/systemd/system/" ++ agent ++ ".service" in
  let text := service_content agent (normalize_url u) user tok jar work in
  let h1 := EvWriteFile unit_file text :: EvPrint cmd_line :: h in
  let h2 := EvRun ["systemctl"; "daemon-reload"] :: h1 in
  let h3 := EvRun ["systemctl"; "enable"; agent ++ ".service"] :: h2 in
  effect_reply w (EvPrint cmd_line :: h) (EvWriteFile unit_file text) = None ->
  process_reply w h1 ["systemctl"; "daemon-reload"] = inr 0%Z ->
  process_reply w h2 ["systemctl"; "enable"; agent ++ ".service"] = inr 0%Z ->
  process_reply w h3 ["systemctl"; "start"; agent ++ ".service"] = inr 0%Z ->
  create_linux_service agent u user tok jar work w h
  = (EvPrint ("Jenkins agent '" ++ agent ++ "' installed as a Linux service.")
       :: EvRun ["systemctl"; "start"; agent ++ ".service"] :: h3,
     Ret tt).
Proof.
  intros cmd_line unit_file text h1 h2 h3 Hw H1 H2 H3.
  unfold create_linux_service. cbv zeta.
  refine (eq_trans (bind_ret_eq _ _ w h (EvPrint cmd_line :: h) tt eq_refl) _).
  unfold try_except.
  fold cmd_line unit_file text.
  rewrite (bind_effect_ret _ _ w _ Hw).
  assert (R1 : subprocess_run ["systemctl"; "daemon-reload"] true w h1
               = (h2, Ret 0%Z))
    by (unfold subprocess_run; rewrite H1; reflexivity).
  rewrite (bind_ret_eq _ _ w h1 h2 0%Z R1).
  assert (R2 : subprocess_run ["systemctl"; "enable"; agent ++ ".service"] true
                 w h2 = (h3, Ret 0%Z))
    by (unfold subprocess_run; rewrite H2; reflexivity).
  rewrite (bind_ret_eq _ _ w h2 h3 0%Z R2).
  assert (R3 : subprocess_run ["systemctl"; "start"; agent ++ ".service"] true
                 w h3
               = (EvRun ["systemctl"; "start"; agent ++ ".service"] :: h3,
                  Ret 0%Z))
    by (unfold subprocess_run; rewrite H3; reflexivity).
  rewrite (bind_ret_eq _ _ w h3 _ 0%Z R3).
  reflexivity.
Qed.

(** X18.  When [systemctl daemon-reload] ends with a non-zero code,
    [create_linux_service] raises [SystemExit] at once: the unit is
    neither enabled nor started. *)
Theorem create_linux_service_stops_at_reload agent u user tok jar work w h rc :
  let cmd_line := exec_command agent (normalize_url u) user tok jar work in
  let unit_file := "/etc/systemd/system/" ++ agent ++ ".service" in
  let text := service_content agent (normalize_url u) user tok jar work in
  let h1 := EvWriteFile unit_file text :: EvPrint cmd_line :: h in
  effect_reply w (EvPrint cmd_line :: h) (EvWriteFile unit_file text) = None ->
  process_reply w h1 ["systemctl"; "daemon-reload"] = inr rc ->
  rc <> 0%Z ->
  exists msg,
    create_linux_service agent u user tok jar work w h
    = (EvRun ["systemctl"; "daemon-reload"] :: h1,
       Raise (SystemExit
                (ExitMsg ("Failed to create and start the systemd service: "
                            ++ msg)))).
Proof.
  intros cmd_line unit_file text h1 Hw H1 Hn.
  exists ("Command returned non-zero exit status " ++ PyStr.of_Z rc ++ ".").
  unfold create_linux_service. cbv zeta.
  refine (eq_trans (bind_ret_eq _ _ w h (EvPrint cmd_line :: h) tt eq_refl) _).
  unfold try_except.
  fold cmd_line unit_file text.
  rewrite (bind_effect_ret _ _ w _ Hw).
  apply Z.eqb_neq in Hn.
  assert (R1 : subprocess_run ["systemctl"; "daemon-reload"] true w h1
               = (EvRun ["systemctl"; "daemon-reload"] :: h1,
                  Raise (OtherException "CalledProcessError"
                           ("Command returned non-zero exit status "
                              ++ PyStr.of_Z rc ++ "."))))
    by (unfold subprocess_run; rewrite H1, Hn; reflexivity).
  rewrite (bind_raise_eq _ _ w h1 _ _ R1).
  reflexivity.
Qed.

Lemma create_linux_service_success_witness :
  snd (create_linux_service "worker-1" "http://ci:8080/" "admin" "s3cret"
         "/var/agent/agent.jar" "/var/agent" (sample_world "Linux" 404 0) [])
  = Ret tt.
Proof.
  apply (f_equal snd
           (create_linux_service_success "worker-1" "http://ci:8080/" "admin"
              "s3cret" "/var/agent/agent.jar" "/var/agent"
              (sample_world "Linux" 404 0) [] eq_refl eq_refl eq_refl eq_refl)).
Defined.

Lemma create_linux_service_stops_at_reload_witness :
  exists msg,
    create_linux_service "worker-1" "http://ci:8080" "admin" "s3cret"
      "/var/agent/agent.jar" "/var/agent"
      (mkWorld (inr sample_args) "Linux" (fun _ => None) (inr 587%Z)
         posixpath_join (fun _ _ => true)
         (fun _ _ => inr (sample_response 200))
         (fun _ _ => None) (fun _ _ => inr 1%Z)) []
    = ([EvRun ["systemctl"; "daemon-reload"];
        EvWriteFile "/etc/systemd/system/worker-1.service"
          (service_content "worker-1" "http://ci:8080" "admin" "s3cret"
             "/var/agent/agent.jar" "/var/agent");
        EvPrint (exec_command "worker-1" "http://ci:8080" "admin" "s3cret"
                   "/var/agent/agent.jar" "/var/agent")],
       Raise (SystemExit
                (ExitMsg ("Failed to create and start the systemd service: "
                            ++ msg)))).
Proof.
  apply (create_linux_service_stops_at_reload "worker-1" "http://ci:8080"
           "admin" "s3cret" "/var/agent/agent.jar" "/var/agent"
           (mkWorld (inr sample_args) "Linux" (fun _ => None) (inr 587%Z)
              posixpath_join (fun _ _ => true)
              (fun _ _ => inr (sample_response 200))
              (fun _ _ => None) (fun _ _ => inr 1%Z)) [] 1%Z);
    first [reflexivity | discriminate].
Defined.

Lemma length_append (a b : string) :
  String.length (a ++ b) = String.length a + String.length b.
Proof. induction a as [|c a IH]; cbn; [reflexivity | now rewrite IH]. Qed.

Lemma append_suffix_neq (a b : string) : b <> "" -> a ++ b <> a.
Proof.
  intros Hb E. apply (f_equal String.length) in E.
  rewrite length_append in E. destruct b; [contradiction | cbn in E; lia].
Qed.

(** The first command of a guarded sequence is recorded whatever
    follows. *)
Lemma first_run_recorded {A} cmd check (k : Z -> M A) cls
    (handler : exn -> M A) w h :
  (forall rc, grows (k rc)) -> (forall x, grows (handler x)) ->
  In (EvRun cmd) (fst (try_except (bind (subprocess_run cmd check) k) cls handler w h)).
Proof.
  intros Gk Gh.
  assert (R : exists r, subprocess_run cmd check w h = (EvRun cmd :: h, r)).
  { unfold subprocess_run. destruct cmd as [|c cmd]; [eexists; reflexivity|].
    destruct (process_reply w h (c :: cmd)) as [x|rc]; [eexists; reflexivity|].
    destruct (check && negb (rc =? 0)%Z); eexists; reflexivity. }
  destruct R as [r R]. unfold try_except, bind. rewrite R.
  destruct r as [rc|x|]; cbn [fst].
  - pose proof (Gk rc w (EvRun cmd :: h) (EvRun cmd) (or_introl eq_refl)) as G.
    destruct (k rc w (EvRun cmd :: h)) as [h2 [v|x|]]; cbn [fst] in *;
      try assumption.
    destruct (isinstance x cls); [apply Gh|]; assumption.
  - destruct (isinstance x cls); [apply Gh|]; left; reflexivity.
  - left; reflexivity.
Qed.

(** X19.  On Windows the service is installed under the name
    [agent_name ++ "_service"] while the monitor queries [agent_name]:
    the two names always differ. *)
Theorem windows_service_name_mismatch agent u user tok jar work w h :
  In (EvRun ["C:\path\to\nssm.exe"; "install"; agent ++ "_service"; "java";
             "-jar"; jar;
             "-jnlpUrl"; u ++ "/computer/" ++ agent ++ "/jenkins-agent.jnlp";
             "-jnlpCredentials"; user ++ ":" ++ tok;
             "-workDir"; work])
     (fst (create_windows_service agent u user tok jar work w h))
  /\ service_status_cmd "Windows" agent = ["sc"; "query"; agent]
  /\ agent ++ "_service" <> agent.
Proof.
  split; [|split; [reflexivity | apply append_suffix_neq; discriminate]].
  unfold create_windows_service. cbv zeta.
  apply first_run_recorded; intros; grows_tac.
Qed.

Lemma contains_middle (s a b c : string) :
  s = a ++ b ++ c -> PyStr.contains s b = true.
Proof. intros ->. apply contains_append. Qed.

(** X20.  [create_windows_service] embeds the URL as it is given: for a
    URL ending with a slash the [-jnlpUrl] argument holds a doubled
    slash before [computer]. *)
Theorem windows_service_keeps_trailing_slash agent u user tok jar work w h :
  In (EvRun ["C:\path\to\nssm.exe"; "install"; agent ++ "_service"; "java";
             "-jar"; jar;
             "-jnlpUrl";
             (u ++ "/") ++ "/computer/" ++ agent ++ "/jenkins-agent.jnlp";
             "-jnlpCredentials"; user ++ ":" ++ tok;
             "-workDir"; work])
     (fst (create_windows_service agent (u ++ "/") user tok jar work w h))
  /\ PyStr.contains
       ((u ++ "/") ++ "/computer/" ++ agent ++ "/jenkins-agent.jnlp")
       "//computer/" = true.
Proof.
  split.
  - unfold create_windows_service. cbv zeta.
    apply first_run_recorded; intros; grows_tac.
  - apply (contains_middle _ u "//computer/" (agent ++ "/jenkins-agent.jnlp")).
    rewrite !append_assoc. reflexivity.
Qed.

(** X21.  [create_linux_service] strips one slash only: of two trailing
    slashes one remains, and the command line then holds a doubled
    slash before [computer]. *)
Theorem normalize_url_strips_one_slash u agent user tok jar work :
  normalize_url (u ++ "//") = u ++ "/"
  /\ PyStr.contains
       (exec_command agent (normalize_url (u ++ "//")) user tok jar work)
       "//computer/" = true.
Proof.
  assert (E : normalize_url (u ++ "//") = u ++ "/").
  { replace (u ++ "//") with ((u ++ "/") ++ "/")
      by (rewrite append_assoc; reflexivity).
    apply normalize_url_append_slash. }
  split; [exact E|]. rewrite E. unfold exec_command.
  apply (contains_middle _ ("/usr/bin/java -jar " ++ jar ++ " -jnlpUrl " ++ u)
           "//computer/"
           (agent ++ "/jenkins-agent.jnlp -jnlpCredentials " ++ user ++ ":"
              ++ tok ++ " -workDir " ++ work)).
  rewrite !append_assoc. reflexivity.
Qed.

(** X22.  [create_linux_service] prints the command line and writes the
    unit file, and both contain the credential pair
    [username:api_token] in clear. *)
Theorem create_linux_service_exposes_token agent u user tok jar work w h :
  In (EvPrint (exec_command agent (normalize_url u) user tok jar work))
     (fst (create_linux_service agent u user tok jar work w h))
  /\ In (EvWriteFile ("/etc/systemd/system/" ++ agent ++ ".service")
           (service_content agent (normalize_url u) user tok jar work))
        (fst (create_linux_service agent u user tok jar work w h))
  /\ PyStr.contains (exec_command agent (normalize_url u) user tok jar work)
       (user ++ ":" ++ tok) = true
  /\ PyStr.contains (service_content agent (normalize_url u) user tok jar work)
       (user ++ ":" ++ tok) = true.
Proof.
  split; [|split; [apply create_linux_service_writes|split]].
  - unfold create_linux_service. cbv zeta.
    assert (G : grows
                  (try_except
                     (effect
                        (EvWriteFile ("/etc/systemd/system/" ++ agent ++ ".service")
                           (service_content agent (normalize_url u) user tok
                              jar work)) ;;
                      subprocess_run ["systemctl"; "daemon-reload"] true ;;
                      subprocess_run ["systemctl"; "enable"; agent ++ ".service"]
                        true ;;
                      subprocess_run ["systemctl"; "start"; agent ++ ".service"]
                        true ;;
                      print ("Jenkins agent '" ++ agent
                               ++ "' installed as a Linux service."))
                     ExceptException
                     (fun e =>
                        raise (SystemExit
                                 (ExitMsg
                                    ("Failed to create and start the systemd service: "
                                       ++ exn_str e))))))
      by grows_tac.
    refine (eq_ind_r (fun p => In _ (fst p))
              _ (bind_ret_eq _ _ w h _ tt eq_refl)).
    apply G. left. reflexivity.
  - unfold exec_command.
    apply (contains_middle _
             ("/usr/bin/java -jar " ++ jar ++ " -jnlpUrl " ++ normalize_url u
                ++ "/computer/" ++ agent
                ++ "/jenkins-agent.jnlp -jnlpCredentials ")
             (user ++ ":" ++ tok) (" -workDir " ++ work)).
    rewrite !append_assoc. reflexivity.
  - unfold service_content, exec_command.
    apply (contains_middle _
             (nl ++ "[Unit]" ++ nl ++ "Description=Jenkins Agent for " ++ agent
                ++ nl ++ "After=network.target" ++ nl ++ nl ++ "[Service]" ++ nl
                ++ "ExecStart=" ++ "/usr/bin/java -jar " ++ jar ++ " -jnlpUrl "
                ++ normalize_url u ++ "/computer/" ++ agent
                ++ "/jenkins-agent.jnlp -jnlpCredentials ")
             (user ++ ":" ++ tok)
             (" -workDir " ++ work ++ nl ++ "User=gopal" ++ nl
                ++ "Restart=on-failure" ++ nl ++ nl ++ "[Install]" ++ nl
                ++ "WantedBy=multi-user.target" ++ nl)).
    rewrite !append_assoc. reflexivity.
Qed.
